(** * gounity: HTTP-traffic logging (package api) and the filesystem,
    NFS-share and NAS-server accessors (package gounity)

    A shallow embedding of [api_logging.go] and of the filesystem accessor
    file, with the properties of the client contract proved over it.

    Strings are Go strings, that is byte sequences: [String.length] is Go's
    [len].  A pointer that may be nil is an [option].  A Go result pair
    [(v, err)] is a pair of options. *)

From Stdlib Require Import String Ascii List ZArith Bool Lia DecimalString.
Import ListNotations.
Local Open Scope string_scope.

(** ** Go values shared by the two packages *)

(** Go [error] values, as far as this code can tell them apart with [==].
    [FilesystemNotFoundError] is the one value the package-level variable of
    that name holds.  [errors_New text] is a value built by a call of
    [errors.New] at a call site: it is never the value of the package-level
    variable, whatever its text.  [foreign_error] is an error handed over by
    a collaborator (the HTTP client, a writer). *)
Inductive error : Type :=
| FilesystemNotFoundError
| errors_New (text : string)
| foreign_error (text : string).

(** The [Error()] method. *)
Definition Error (e : error) : string :=
  match e with
  | FilesystemNotFoundError => "Unable to find filesystem"
  | errors_New text => text
  | foreign_error text => text
  end.

(** What the verb [%v] prints for an error operand that may be nil. *)
Definition fmt_v (err : option error) : string :=
  match err with
  | Some e => Error e
  | None => "<nil>"
  end.

Definition LF : ascii := ascii_of_nat 10.
Definition CR : ascii := ascii_of_nat 13.

(** The one-byte string written by [fmt.Fprintln] after its operands. *)
Definition newline : string := String LF EmptyString.

(** ** Package api: api_logging.go *)

Module Api.

(** [io.Writer] as [fmt.Fprint] uses it: one write of a string, giving the
    writer afterwards and the error of the write. *)
Class Writer (W : Type) := Fprint : W -> string -> W * option error.

(** [fmt.Fprintln] with one string operand (or none: the empty string). *)
Definition Fprintln {W : Type} `{Writer W} (w : W) (s : string) : W * option error :=
  Fprint w (s ++ newline).

(** [bytes.Buffer], by its content.  A write appends and has no error. *)
Definition Buffer : Type := string.

#[export] Instance Buffer_Writer : Writer Buffer :=
  fun w s => (w ++ s, None).

(** [http.Header] is a map from keys to value lists; reading a key that is
    absent gives nil. *)
Definition Header : Type := string -> list string.

(** What this file uses of the Go standard library and of the rest of
    package api without defining it:
    - [CanonicalMIMEHeaderKey], which [http.Header.Get] applies to its key;
    - the requests and responses of net/http, of which only the header is
      read here;
    - [httputil.DumpRequest] and [httputil.DumpResponse], by their results;
    - [ScanLines b]: the tokens a [bufio.Scanner] over [b] yields, in order,
      until [Scan] reports false;
    - the two constants of package api naming the content-type header and
      its binary value. *)
Record Runtime : Type := {
  CanonicalMIMEHeaderKey : string -> string;
  Request : Type;
  Request_Header : Request -> Header;
  Response : Type;
  Response_Header : Response -> Header;
  DumpRequest : Request -> bool -> string * option error;
  DumpResponse : Response -> bool -> string * option error;
  ScanLines : string -> list string;
  HeaderKeyContentType : string;
  headerValContentTypeBinaryOctetStream : string
}.

(** [http.Header.Get]: the first value under the canonical key, or "". *)
Definition Header_Get (rt : Runtime) (h : Header) (key : string) : string :=
  match h (CanonicalMIMEHeaderKey rt key) with
  | [] => ""
  | v :: _ => v
  end.

Definition isBinOctetBody (rt : Runtime) (h : Header) : bool :=
  (Header_Get rt h (HeaderKeyContentType rt)
   =? headerValContentTypeBinaryOctetStream rt)%string.

(** The loop [for x := 0; x < n; x++] of [WriteIndentedN], with [x] writes
    still to do. *)
Fixpoint write_spaces {W : Type} `{Writer W} (w : W) (x : nat) : W * option error :=
  match x with
  | O => (w, None)
  | S x' =>
      let '(w1, err) := Fprint w " " in
      match err with
      | Some e => (w1, Some e)
      | None => write_spaces w1 x'
      end
  end.

(** The outer loop of [WriteIndentedN]: [l] is the line in hand and [rest]
    the tokens the scanner has still to yield. *)
Fixpoint write_lines {W : Type} `{Writer W} (w : W) (l : string)
  (rest : list string) (n : Z) : W * option error :=
  let '(w1, err) := write_spaces w (Z.to_nat n) in
  match err with
  | Some e => (w1, Some e)
  | None =>
      let '(w2, err) := Fprint w1 l in
      match err with
      | Some e => (w2, Some e)
      | None =>
          match rest with
          | [] => (w2, None)
          | l' :: rest' =>
              let '(w3, err) := Fprint w2 newline in
              match err with
              | Some e => (w3, Some e)
              | None => write_lines w3 l' rest' n
              end
          end
      end
  end.

(** WriteIndentedN indents all lines n spaces. *)
Definition WriteIndentedN {W : Type} `{Writer W} (rt : Runtime) (w : W)
  (b : string) (n : Z) : W * option error :=
  match ScanLines rt b with
  | [] => (w, None)
  | l :: rest => write_lines w l rest n
  end.

(** WriteIndented indents all lines four spaces. *)
Definition WriteIndented {W : Type} `{Writer W} (rt : Runtime) (w : W)
  (b : string) : W * option error :=
  WriteIndentedN rt w b 4.

(** What the logging helpers do that can be seen from outside: the dump they
    ask for, and the entries they hand to the logger. *)
Inductive Event (rt : Runtime) : Type :=
| DumpRequest_called (req : Request rt) (body : bool)
| DumpResponse_called (res : Response rt) (body : bool)
| log_Info (message : string)
| log_Debug (message : string).

Arguments DumpRequest_called {rt} req body.
Arguments DumpResponse_called {rt} res body.
Arguments log_Info {rt} message.
Arguments log_Debug {rt} message.

Definition is_log_entry {rt : Runtime} (ev : Event rt) : bool :=
  match ev with
  | log_Info _ | log_Debug _ => true
  | _ => false
  end.

(** [logRequest].  The context and the callback [lf] are not used by the
    body.  The buffer [w] is filled and then dropped: the call that would
    log it is commented out in the source. *)
Definition logRequest (rt : Runtime) (req : Request rt)
  (events : list (Event rt)) : unit * list (Event rt) :=
  let w : Buffer := "" in
  let w := fst (Fprintln w "") in
  let w := fst (Fprint w "    -------------------------- ") in
  let w := fst (Fprint w "GOUNITY HTTP REQUEST") in
  let w := fst (Fprintln w " -------------------------") in
  let body := negb (isBinOctetBody rt (Request_Header rt req)) in
  let events := (events ++ [DumpRequest_called req body])%list in
  let '(buf, err) := DumpRequest rt req body in
  match err with
  | Some _ => (tt, events)
  | None =>
      let '(w, err2) := WriteIndented rt w buf in
      let events :=
        match err2 with
        | Some e2 =>
            (events ++ [log_Info ("Indentation failed with error: " ++ Error e2)])%list
        | None => events
        end in
      let w := fst (Fprintln w "") in
      (tt, events)
  end.

(** The loop of [logResponse] over the scanner on [bw]. *)
Definition copy_lines (w : Buffer) (tokens : list string) : Buffer :=
  fold_left (fun w text => fst (Fprintln w text)) tokens w.

Definition logResponse (rt : Runtime) (res : Response rt)
  (events : list (Event rt)) : unit * list (Event rt) :=
  let w : Buffer := "" in
  let w := fst (Fprintln w "") in
  let w := fst (Fprint w "    -------------------------- ") in
  let w := fst (Fprint w "GOUNITY HTTP RESPONSE") in
  let w := fst (Fprintln w " -------------------------") in
  let body := negb (isBinOctetBody rt (Response_Header rt res)) in
  let events := (events ++ [DumpResponse_called res body])%list in
  let '(buf, err) := DumpResponse rt res body in
  match err with
  | Some _ => (tt, events)
  | None =>
      let bw : Buffer := "" in
      let '(bw, err2) := WriteIndented rt bw buf in
      let events :=
        match err2 with
        | Some e2 =>
            (events ++ [log_Info ("Indentation failed with error: " ++ Error e2)])%list
        | None => events
        end in
      let w := copy_lines w (ScanLines rt bw) in
      (tt, (events ++ [log_Debug w])%list)
  end.

(** *** Abbreviations for the statements *)

(** A writer whose writes never fail and whose content can be read back:
    each write appends its operand. *)
Class ReliableWriter (W : Type) `{Writer W} : Type := {
  written : W -> string;
  Fprint_appends :
    forall (w : W) (s : string),
      snd (Fprint w s) = None /\ written (fst (Fprint w s)) = written w ++ s
}.

#[export] Instance Buffer_ReliableWriter : ReliableWriter Buffer := {|
  written := fun w => w;
  Fprint_appends := fun w s => conj eq_refl eq_refl
|}.

Fixpoint spaces (k : nat) : string :=
  match k with
  | O => ""
  | S k' => String " " (spaces k')
  end.

(** The indentation for a count [n] of Go type [int]. *)
Definition indentation (n : Z) : string := spaces (Z.to_nat n).

(** The lines of [b], each behind the indentation, joined by newlines. *)
Definition indentedText (rt : Runtime) (b : string) (n : Z) : string :=
  String.concat newline (map (fun l => indentation n ++ l) (ScanLines rt b)).

(** Each line followed by a newline. *)
Definition terminatedLines (lines : list string) : string :=
  fold_right (fun l text => l ++ newline ++ text) "" lines.

Definition responseBanner : string :=
  newline ++ "    -------------------------- " ++ "GOUNITY HTTP RESPONSE"
  ++ " -------------------------" ++ newline.

(** The operands of the writes [WriteIndentedN] asks for, in order, from
    the line in hand on: [n] single spaces and the line, and before every
    further line a newline. *)
Fixpoint pieces (n : nat) (l : string) (rest : list string) : list string :=
  (repeat " " n
   ++ l :: match rest with
           | [] => []
           | l' :: rest' => newline :: pieces n l' rest'
           end)%list.

(** Writing operands one after the other, up to the first write that
    fails. *)
Fixpoint write_all {W : Type} `{Writer W} (w : W) (operands : list string)
  : W * option error :=
  match operands with
  | [] => (w, None)
  | p :: operands' =>
      let '(w1, err) := Fprint w p in
      match err with
      | Some e => (w1, Some e)
      | None => write_all w1 operands'
      end
  end.

Definition is_log_Info {rt : Runtime} (ev : Event rt) : bool :=
  match ev with
  | log_Info _ => true
  | _ => false
  end.

(** *** Reference values for the runtime *)

Definition dropCR (line : string) : string :=
  match rev (list_ascii_of_string line) with
  | c :: before =>
      if Ascii.eqb c CR then string_of_list_ascii (rev before) else line
  | [] => line
  end.

(** [bufio.ScanLines] on data whose lines fit the scanner's buffer: a token
    per newline-terminated line, without the newline and without one
    carriage return before it, and a last token for a non-empty rest. *)
Fixpoint split_lines (data : string) (line : string) : list string :=
  match data with
  | EmptyString =>
      match line with
      | EmptyString => []
      | _ => [dropCR line]
      end
  | String c data' =>
      if Ascii.eqb c LF then dropCR line :: split_lines data' ""
      else split_lines data' (line ++ String c EmptyString)
  end.

Definition bufio_ScanLines (data : string) : list string := split_lines data "".

(** A writer for examples that takes [room] more bytes and then fails: an
    operand that does not fit is refused whole. *)
Record LimitedWriter : Type := { taken : string; room : nat }.

#[export] Instance LimitedWriter_Writer : Writer LimitedWriter :=
  fun w s =>
    if (String.length s <=? room w)%nat then
      ({| taken := taken w ++ s; room := room w - String.length s |}, None)
    else (w, Some (foreign_error "short write")).

(** A runtime for examples: requests and responses are a content type and
    the text of their dump with and without the body; a dump whose text is
    empty stands for one that failed. *)
Record Message : Type := {
  contentType : string;
  dumpWithBody : string;
  dumpWithoutBody : string
}.

Definition Message_Header (m : Message) : Header :=
  fun key => if (key =? "Content-Type")%string then [contentType m] else [].

Definition Message_Dump (m : Message) (body : bool) : string * option error :=
  let text := if body then dumpWithBody m else dumpWithoutBody m in
  match text with
  | EmptyString => ("", Some (foreign_error "http: ContentLength with Body length 0"))
  | _ => (text, None)
  end.

Definition exampleRuntime : Runtime := {|
  CanonicalMIMEHeaderKey := fun key => key;
  Request := Message;
  Request_Header := Message_Header;
  Response := Message;
  Response_Header := Message_Header;
  DumpRequest := Message_Dump;
  DumpResponse := Message_Dump;
  ScanLines := bufio_ScanLines;
  HeaderKeyContentType := "Content-Type";
  headerValContentTypeBinaryOctetStream := "binary/octet-stream"
|}.

(** The same runtime for messages that carry no header at all. *)
Definition headerlessRuntime : Runtime := {|
  CanonicalMIMEHeaderKey := fun key => key;
  Request := Message;
  Request_Header := fun _ _ => [];
  Response := Message;
  Response_Header := fun _ _ => [];
  DumpRequest := Message_Dump;
  DumpResponse := Message_Dump;
  ScanLines := bufio_ScanLines;
  HeaderKeyContentType := "Content-Type";
  headerValContentTypeBinaryOctetStream := "binary/octet-stream"
|}.

Definition CRLF : string := String CR (String LF EmptyString).

Definition jsonMessage : Message := {|
  contentType := "application/json";
  dumpWithBody :=
    "HTTP/1.1 200 OK" ++ CRLF ++ "Content-Type: application/json" ++ CRLF
    ++ CRLF ++ "{id:1}";
  dumpWithoutBody :=
    "HTTP/1.1 200 OK" ++ CRLF ++ "Content-Type: application/json" ++ CRLF
    ++ CRLF
|}.

End Api.

(** ** Package gounity: the filesystem accessor *)

Module Gounity.

(** *** Package types, as far as this file reads or fills its structs *)

Module types.

(** The struct under [Filesystem.FileContent.StorageResource]. *)
Record StorageResourceT : Type := { Id : string }.
Record FileContentT : Type := { StorageResource : StorageResourceT }.
Record Filesystem : Type := { FileContent : FileContentT }.

(** Modelled from the spec: the structs NFSShare and NASServer of package
    types, which are declared outside the files embedded here and of which
    no field is read here; the data model identifies an NFS share by id or
    name and a NAS server by id. *)
Record NFSShare : Type := { NFSShare_Id : string; NFSShare_Name : string }.
Record NASServer : Type := { NASServer_Id : string }.

Record PoolFastVPT : Type := { Status : Z }.
Record StoragePoolContentT : Type := { PoolFastVP : PoolFastVPT }.
Record StoragePool : Type := { StoragePoolContent : StoragePoolContentT }.

Record LicenseInfoContentT : Type := { IsInstalled : bool; IsValid : bool }.
Record LicenseInfo : Type := { LicenseInfoContent : LicenseInfoContentT }.

Record StoragePoolID : Type := { PoolId : string }.
Record FileEventSettings : Type := { IsCIFSEnabled : bool; IsNFSEnabled : bool }.
Record NasServerID : Type := { NasServerID_NasServerID : string }.
Record FastVPParameters : Type := { TieringPolicy : Z }.

Record FsParameters : Type := {
  FsParameters_StoragePool : option StoragePoolID;
  Size : N;
  SupportedProtocol : Z;
  HostIOSize : Z;
  NasServer : option NasServerID;
  FsParameters_FileEventSettings : FileEventSettings;
  IsThinEnabled : string;
  IsDataReductionEnabled : string;
  FsParameters_FastVPParameters : option FastVPParameters
}.

Record FsCreateParam : Type := {
  FsCreateParam_Name : string;
  Description : string;
  FsCreateParam_FsParameters : option FsParameters
}.

Record HostIdContent : Type := { HostIdContent_ID : string }.

Record NFSShareParameters : Type := {
  DefaultAccess : string;
  ReadOnlyHosts : option (list HostIdContent);
  ReadWriteHosts : option (list HostIdContent);
  ReadOnlyRootAccessHosts : option (list HostIdContent);
  RootAccessHosts : option (list HostIdContent)
}.

Record NFSShareCreateParam : Type := {
  NFSShareCreateParam_Name : string;
  Path : string;
  NFSShareCreateParam_NFSShareParameters : option NFSShareParameters
}.

Record FsModifyParameters : Type := {
  NFSShares : option (list NFSShareCreateParam)
}.

Record StorageResourceParam : Type := { StorageResourceParam_ID : string }.

Record NFSShareModifyContent : Type := {
  NFSShareModifyContent_NFSShare : option StorageResourceParam;
  NFSShareModifyContent_NFSShareParameters : option NFSShareParameters
}.

Record NFSShareModify : Type := {
  NFSSharesModifyContent : option (list NFSShareModifyContent)
}.

Record NFSShareDelete : Type := {
  NFSSharesDeleteContent : option (list NFSShareModifyContent)
}.

End types.

Import types.

(** *** The HTTP executor *)

Inductive Method : Type := MethodGet | MethodPost | MethodDelete.

(** The URI formats of package api this file fills in.  The format strings
    are declared in another file of package api, so a URI is kept as the
    format constant with the operands [fmt.Sprintf] is given for it. *)
Inductive UriFormat : Type :=
| UnityApiGetResourceByNameWithFieldsUri
| UnityApiGetResourceWithFieldsUri
| UnityApiGetResourceUri
| UnityApiStorageResourceActionUri
| UnityModifyFilesystemUri.

Record Uri : Type := Sprintf { format : UriFormat; operands : list string }.

(** The request body handed to the executor. *)
Inductive Body : Type :=
| nil_body
| FsCreateParam_body (p : FsCreateParam)
| FsModifyParameters_body (p : FsModifyParameters)
| NFSShareModify_body (p : NFSShareModify)
| NFSShareDelete_body (p : NFSShareDelete).

(** One call of [executeWithRetryAuthenticate]. *)
Record Call : Type := { method : Method; uri : Uri; body : Body }.

(** What a call gives back: its error, and what the response decodes to in
    each of the result structs a caller of this file may pass. *)
Record Reply : Type := {
  err : option error;
  asFilesystem : Filesystem;
  asNFSShare : NFSShare;
  asNASServer : NASServer
}.

(** The state an operation runs in: the array behind the client, and the
    calls the executor has been given so far, oldest first. *)
Record State (W : Type) : Type := { world : W; calls : list Call }.

Arguments world {W} s.
Arguments calls {W} s.

(** Computations over that state.  [None] as a result is a run-time panic
    (a nil pointer dereferenced). *)
Definition M (W A : Type) : Type := State W -> option A * State W.

Definition ret {W A : Type} (a : A) : M W A := fun s => (Some a, s).

Definition bind {W A B : Type} (m : M W A) (k : A -> M W B) : M W B :=
  fun s =>
    match m s with
    | (Some a, s') => k a s'
    | (None, s') => (None, s')
    end.

Notation "x <- m ;; k" := (bind m (fun x => k))
  (at level 61, m at next level, right associativity).
Notation "' pat <- m ;; k" := (bind m (fun x => match x with pat => k end))
  (at level 61, pat pattern, m at next level, right associativity).

(** Reading through a pointer. *)
Definition deref {W A : Type} (p : option A) : M W A := fun s => (p, s).

(** The [*Client] an accessor holds, with what the accessor reaches through
    it and other files define: how the array answers a call, the
    field-selection constants of package api, the license names, and the
    methods [FindStoragePoolById] of the storage-pool accessor and
    [isFeatureLicensed] of the volume accessor built on the same client. *)
Record Client : Type := {
  World : Type;
  respond : World -> Call -> World * Reply;
  FileSystemDisplayFields : string;
  NFSShareDisplayfields : string;
  NasServerDisplayfields : string;
  ThinProvisioning : string;
  DataReduction : string;
  FindStoragePoolById : string -> M World (option StoragePool * option error);
  isFeatureLicensed : string -> M World (option LicenseInfo * option error)
}.

Definition executeWithRetryAuthenticate (c : Client) (method : Method)
  (uri : Uri) (body : Body) : M (World c) Reply :=
  fun s =>
    let call := {| method := method; uri := uri; body := body |} in
    let '(w, reply) := respond c (world s) call in
    (Some reply, {| world := w; calls := calls s ++ [call] |}).

(** *** The accessor

    The calls to the run-id logger write a line and have no part in what an
    operation returns or sends; they are left out. *)

Record filesystem : Type := { client : Client }.

Definition FsNameMaxLength : nat := 63.

Definition AccessType : Type := string.

Definition ReadOnlyAccessType : AccessType := "READ_ONLY".
Definition ReadWriteAccessType : AccessType := "READ_WRITE".
Definition ReadOnlyRootAccessType : AccessType := "READ_ONLY_ROOT".
Definition ReadWriteRootAccessType : AccessType := "READ_WRITE_ROOT".

Definition NFSShareDefaultAccess : Type := string.

Definition NoneDefaultAccess : NFSShareDefaultAccess := "0".
Definition ReadOnlyDefaultAccess : NFSShareDefaultAccess := "1".
Definition ReadWriteDefaultAccess : NFSShareDefaultAccess := "2".
Definition ReadOnlyRootDefaultAccess : NFSShareDefaultAccess := "3".
Definition ReadWriteRootDefaultAccess : NFSShareDefaultAccess := "4".

Definition NewFilesystem (c : Client) : filesystem := {| client := c |}.

(** The result type of an operation of accessor [f]. *)
Definition Op (f : filesystem) (A : Type) : Type := M (World (client f)) A.

(** The verb [%d] on a length bound, and [strconv.FormatBool]. *)
Definition fmt_d (n : nat) : string := NilZero.string_of_uint (Nat.to_uint n).

Definition FormatBool (b : bool) : string := if b then "true" else "false".

(** FindFilesystemByName - Find the Filesystem by it's name. *)
Definition FindFilesystemByName (f : filesystem) (filesystemName : string)
  : Op f (option Filesystem * option error) :=
  if (String.length filesystemName =? 0)%nat then
    ret (None, Some (errors_New "Filesystem Name shouldn't be empty"))
  else
    reply <- executeWithRetryAuthenticate (client f) MethodGet
      (Sprintf UnityApiGetResourceByNameWithFieldsUri
         ["filesystem"; filesystemName; FileSystemDisplayFields (client f)])
      nil_body ;;
    match err reply with
    | Some _ => ret (None, Some FilesystemNotFoundError)
    | None => ret (Some (asFilesystem reply), None)
    end.

(** FindFilesystemById - Find the Filesystem by it's Id. *)
Definition FindFilesystemById (f : filesystem) (filesystemId : string)
  : Op f (option Filesystem * option error) :=
  if (String.length filesystemId =? 0)%nat then
    ret (None, Some (errors_New "Filesystem Id shouldn't be empty"))
  else
    reply <- executeWithRetryAuthenticate (client f) MethodGet
      (Sprintf UnityApiGetResourceWithFieldsUri
         ["filesystem"; filesystemId; FileSystemDisplayFields (client f)])
      nil_body ;;
    match err reply with
    | Some _ => ret (None, Some FilesystemNotFoundError)
    | None => ret (Some (asFilesystem reply), None)
    end.

(** Assignments to single fields of a value of [FsParameters]. *)
Definition set_IsThinEnabled (p : FsParameters) (v : string) : FsParameters :=
  {| FsParameters_StoragePool := FsParameters_StoragePool p;
     Size := Size p;
     SupportedProtocol := SupportedProtocol p;
     HostIOSize := HostIOSize p;
     NasServer := NasServer p;
     FsParameters_FileEventSettings := FsParameters_FileEventSettings p;
     IsThinEnabled := v;
     IsDataReductionEnabled := IsDataReductionEnabled p;
     FsParameters_FastVPParameters := FsParameters_FastVPParameters p |}.

Definition set_IsDataReductionEnabled (p : FsParameters) (v : string) : FsParameters :=
  {| FsParameters_StoragePool := FsParameters_StoragePool p;
     Size := Size p;
     SupportedProtocol := SupportedProtocol p;
     HostIOSize := HostIOSize p;
     NasServer := NasServer p;
     FsParameters_FileEventSettings := FsParameters_FileEventSettings p;
     IsThinEnabled := IsThinEnabled p;
     IsDataReductionEnabled := v;
     FsParameters_FastVPParameters := FsParameters_FastVPParameters p |}.

Definition set_FastVPParameters (p : FsParameters) (v : option FastVPParameters)
  : FsParameters :=
  {| FsParameters_StoragePool := FsParameters_StoragePool p;
     Size := Size p;
     SupportedProtocol := SupportedProtocol p;
     HostIOSize := HostIOSize p;
     NasServer := NasServer p;
     FsParameters_FileEventSettings := FsParameters_FileEventSettings p;
     IsThinEnabled := IsThinEnabled p;
     IsDataReductionEnabled := IsDataReductionEnabled p;
     FsParameters_FastVPParameters := v |}.

(** The test [IsInstalled && IsValid] on a license answer. *)
Definition installed_and_valid (l : LicenseInfo) : bool :=
  IsInstalled (LicenseInfoContent l) && IsValid (LicenseInfoContent l).

(** The call of the createFilesystem action. *)
Definition createFilesystemUri : Uri :=
  Sprintf UnityApiStorageResourceActionUri ["createFilesystem"].

(** CreateFilesystem - Create a new filesystem on the array.  The three
    local functions are the rest of the body after the data-reduction test,
    after the thin-provisioning test, and the two tests themselves, so that
    each [return] of the source ends the computation where it stands. *)
Definition CreateFilesystem (f : filesystem)
  (name storagepool description nasServer : string) (size : N)
  (tieringPolicy hostIOSize supportedProtocol : Z)
  (isThinEnabled isDataReductionEnabled : bool)
  : Op f (option Filesystem * option error) :=
  if (name =? "")%string then
    ret (None, Some (errors_New "filesystem name should not be empty."))
  else if (FsNameMaxLength <? String.length name)%nat then
    ret (None, Some (errors_New
      ("filesystem name " ++ name ++ " should not exceed "
       ++ fmt_d FsNameMaxLength ++ " characters.")))
  else
    '(pool, err) <- FindStoragePoolById (client f) storagepool ;;
    match pool with
    | None =>
        ret (None, Some (errors_New
          ("unable to get PoolID (" ++ storagepool ++ ") Error:" ++ fmt_v err)))
    | Some pool =>
    match err with
    | Some _ =>
        ret (None, Some (errors_New
          ("Error trying to get Storage Pool (" ++ storagepool ++ ") Error:"
           ++ fmt_v err)))
    | None =>
    let storagePool := {| PoolId := storagepool |} in
    let fileEventSettings := {| IsCIFSEnabled := false; IsNFSEnabled := true |} in
    let nas := {| NasServerID_NasServerID := nasServer |} in
    let fsParams :=
      {| FsParameters_StoragePool := Some storagePool;
         Size := size;
         SupportedProtocol := supportedProtocol;
         HostIOSize := hostIOSize;
         NasServer := Some nas;
         FsParameters_FileEventSettings := fileEventSettings;
         IsThinEnabled := "";
         IsDataReductionEnabled := "";
         FsParameters_FastVPParameters := None |} in
    '(thinProvisioningLicenseInfoResp, err) <-
      isFeatureLicensed (client f) (ThinProvisioning (client f)) ;;
    match err with
    | Some _ =>
        ret (None, Some (errors_New
          ("Unable to get license info for feature: "
           ++ ThinProvisioning (client f))))
    | None =>
    '(dataReductionLicenseInfoResp, err) <-
      isFeatureLicensed (client f) (DataReduction (client f)) ;;
    match err with
    | Some _ =>
        ret (None, Some (errors_New
          ("Unable to get license info for feature: "
           ++ DataReduction (client f))))
    | None =>
    let send (fsParams : FsParameters) : Op f (option Filesystem * option error) :=
      let fsParams :=
        if negb (Status (PoolFastVP (StoragePoolContent pool)) =? 0)%Z then
          set_FastVPParameters fsParams
            (Some {| TieringPolicy := tieringPolicy |})
        else fsParams in
      let fileReqParam :=
        {| FsCreateParam_Name := name;
           Description := description;
           FsCreateParam_FsParameters := Some fsParams |} in
      reply <- executeWithRetryAuthenticate (client f) MethodPost
        createFilesystemUri (FsCreateParam_body fileReqParam) ;;
      match Gounity.err reply with
      | Some e => ret (None, Some e)
      | None => ret (Some (asFilesystem reply), None)
      end in
    let dataReduction (fsParams : FsParameters)
      : Op f (option Filesystem * option error) :=
      license <- deref dataReductionLicenseInfoResp ;;
      if installed_and_valid license then
        send (set_IsDataReductionEnabled fsParams
                (FormatBool isDataReductionEnabled))
      else if isDataReductionEnabled then
        ret (None, Some (errors_New
          "Data Reduction is not supported on array and hence cannot create Filesystem."))
      else send fsParams in
    license <- deref thinProvisioningLicenseInfoResp ;;
    if installed_and_valid license then
      dataReduction (set_IsThinEnabled fsParams (FormatBool isThinEnabled))
    else if isThinEnabled then
      ret (None, Some (errors_New
        "Thin Provisioning is not supported on array and hence cannot create Filesystem."))
    else dataReduction fsParams
    end end end end.

(** Delete Filesystem by its ID. *)
Definition DeleteFilesystem (f : filesystem) (filesystemId : string)
  : Op f (option error) :=
  if (String.length filesystemId =? 0)%nat then
    ret (Some (errors_New "Filesystem Id cannot be empty"))
  else
    '(filesystemResp, err) <- FindFilesystemById f filesystemId ;;
    match err with
    | Some _ => ret (Some FilesystemNotFoundError)
    | None =>
        fs <- deref filesystemResp ;;
        let resourceID := Id (StorageResource (FileContent fs)) in
        reply <- executeWithRetryAuthenticate (client f) MethodDelete
          (Sprintf UnityApiGetResourceUri ["storageResource"; resourceID])
          nil_body ;;
        match Gounity.err reply with
        | Some deleteErr =>
            ret (Some (errors_New
              ("Delete Filesystem " ++ filesystemId ++ " Failed. Error: "
               ++ Error deleteErr)))
        | None => ret None
        end
    end.

(** Create NFSShare - Create NFS Share for a File system. *)
Definition CreateNFSShare (f : filesystem) (name path filesystemId : string)
  (nfsShareDefaultAccess : NFSShareDefaultAccess)
  : Op f (option Filesystem * option error) :=
  if (String.length filesystemId =? 0)%nat then
    ret (None, Some (errors_New "Filesystem Id cannot be empty"))
  else
    '(filesystemResp, err) <- FindFilesystemById f filesystemId ;;
    match err with
    | Some _ => ret (None, Some FilesystemNotFoundError)
    | None =>
        fs <- deref filesystemResp ;;
        let resourceID := Id (StorageResource (FileContent fs)) in
        let nfsShareParam :=
          {| DefaultAccess := nfsShareDefaultAccess;
             ReadOnlyHosts := None;
             ReadWriteHosts := None;
             ReadOnlyRootAccessHosts := None;
             RootAccessHosts := None |} in
        let nfsShareCreateReqParam :=
          {| NFSShareCreateParam_Name := name;
             Path := path;
             NFSShareCreateParam_NFSShareParameters := Some nfsShareParam |} in
        let nfsShares := [nfsShareCreateReqParam] in
        let filesystemModifyParam := {| NFSShares := Some nfsShares |} in
        reply <- executeWithRetryAuthenticate (client f) MethodPost
          (Sprintf UnityModifyFilesystemUri [resourceID])
          (FsModifyParameters_body filesystemModifyParam) ;;
        match Gounity.err reply with
        | Some e =>
            ret (None, Some (errors_New
              ("Create NFS Share failed. Error: " ++ Error e)))
        | None =>
            '(filesystemResp, err) <- FindFilesystemById f filesystemId ;;
            match err with
            | Some _ => ret (None, Some FilesystemNotFoundError)
            | None => ret (filesystemResp, None)
            end
        end
    end.

(** FindNFSShareByName - Find the NFS Share by it's name. *)
Definition FindNFSShareByName (f : filesystem) (nfsSharename : string)
  : Op f (option NFSShare * option error) :=
  if (String.length nfsSharename =? 0)%nat then
    ret (None, Some (errors_New "NFS Share Name shouldn't be empty"))
  else
    reply <- executeWithRetryAuthenticate (client f) MethodGet
      (Sprintf UnityApiGetResourceByNameWithFieldsUri
         ["nfsShare"; nfsSharename; NFSShareDisplayfields (client f)])
      nil_body ;;
    match err reply with
    | Some e =>
        ret (None, Some (errors_New
          ("Unable to find NFS Share. Error: " ++ Error e)))
    | None => ret (Some (asNFSShare reply), None)
    end.

(** FindNFSShareById - Find the NFS Share by it's Id. *)
Definition FindNFSShareById (f : filesystem) (nfsShareId : string)
  : Op f (option NFSShare * option error) :=
  if (String.length nfsShareId =? 0)%nat then
    ret (None, Some (errors_New "NFS Share Id shouldn't be empty"))
  else
    reply <- executeWithRetryAuthenticate (client f) MethodGet
      (Sprintf UnityApiGetResourceWithFieldsUri
         ["nfsShare"; nfsShareId; NFSShareDisplayfields (client f)])
      nil_body ;;
    match err reply with
    | Some e =>
        ret (None, Some (errors_New
          ("Unable to find NFS Share: " ++ nfsShareId ++ ". Error: "
           ++ Error e)))
    | None => ret (Some (asNFSShare reply), None)
    end.

(** The loop of [ModifyNFSShareHostAccess] over [hostIds]. *)
Definition hostIdContents (hostIds : list string) : list HostIdContent :=
  fold_left
    (fun hostsIdsContent hostId =>
       hostsIdsContent ++ [{| HostIdContent_ID := hostId |}])%list
    hostIds [].

(** ModifyNFSShareHostAccess - Modify the host access on NFS Share. *)
Definition ModifyNFSShareHostAccess (f : filesystem)
  (filesystemId nfsShareId : string) (hostIds : list string)
  (accessType : AccessType) : Op f (option error) :=
  if (String.length filesystemId =? 0)%nat then
    ret (Some (errors_New "Filesystem Id cannot be empty"))
  else
    '(filesystemResp, err) <- FindFilesystemById f filesystemId ;;
    match err with
    | Some _ => ret (Some FilesystemNotFoundError)
    | None =>
        fs <- deref filesystemResp ;;
        let resourceID := Id (StorageResource (FileContent fs)) in
        let hostsIdsContent := hostIdContents hostIds in
        let nfsShareParameters :=
          if (accessType =? ReadOnlyAccessType)%string then
            {| DefaultAccess := "";
               ReadOnlyHosts := Some hostsIdsContent;
               ReadWriteHosts := None;
               ReadOnlyRootAccessHosts := None;
               RootAccessHosts := None |}
          else if (accessType =? ReadWriteAccessType)%string then
            {| DefaultAccess := "";
               ReadOnlyHosts := None;
               ReadWriteHosts := Some hostsIdsContent;
               ReadOnlyRootAccessHosts := None;
               RootAccessHosts := None |}
          else if (accessType =? ReadOnlyRootAccessType)%string then
            {| DefaultAccess := "";
               ReadOnlyHosts := None;
               ReadWriteHosts := None;
               ReadOnlyRootAccessHosts := Some hostsIdsContent;
               RootAccessHosts := None |}
          else
            {| DefaultAccess := "";
               ReadOnlyHosts := None;
               ReadWriteHosts := None;
               ReadOnlyRootAccessHosts := None;
               RootAccessHosts := Some hostsIdsContent |} in
        let nfsShare := {| StorageResourceParam_ID := nfsShareId |} in
        let nfsShareModifyContent :=
          {| NFSShareModifyContent_NFSShare := Some nfsShare;
             NFSShareModifyContent_NFSShareParameters := Some nfsShareParameters |} in
        let nfsSharesModifyContent := [nfsShareModifyContent] in
        let nfsShareModifyReq :=
          {| NFSSharesModifyContent := Some nfsSharesModifyContent |} in
        reply <- executeWithRetryAuthenticate (client f) MethodPost
          (Sprintf UnityModifyFilesystemUri [resourceID])
          (NFSShareModify_body nfsShareModifyReq) ;;
        match Gounity.err reply with
        | Some e =>
            ret (Some (errors_New
              ("Modify NFS Share failed. Error: " ++ Error e)))
        | None => ret None
        end
    end.

(** DeleteNFSShare by its ID. *)
Definition DeleteNFSShare (f : filesystem) (filesystemId nfsShareId : string)
  : Op f (option error) :=
  if (String.length filesystemId =? 0)%nat then
    ret (Some (errors_New "Filesystem Id cannot be empty"))
  else
    '(filesystemResp, err) <- FindFilesystemById f filesystemId ;;
    match err with
    | Some _ => ret (Some FilesystemNotFoundError)
    | None =>
        fs <- deref filesystemResp ;;
        let resourceID := Id (StorageResource (FileContent fs)) in
        if (String.length nfsShareId =? 0)%nat then
          ret (Some (errors_New "NFS Share Id cannot be empty"))
        else
          '(_, err) <- FindNFSShareById f nfsShareId ;;
          match err with
          | Some e =>
              ret (Some (errors_New
                ("Unable to find NFS Share. Error: " ++ Error e)))
          | None =>
              let nfsShare := {| StorageResourceParam_ID := nfsShareId |} in
              let nfsShareDeleteContent :=
                {| NFSShareModifyContent_NFSShare := Some nfsShare;
                   NFSShareModifyContent_NFSShareParameters := None |} in
              let nfsSharesDeleteContent := [nfsShareDeleteContent] in
              let nfsShareDeleteReq :=
                {| NFSSharesDeleteContent := Some nfsSharesDeleteContent |} in
              reply <- executeWithRetryAuthenticate (client f) MethodPost
                (Sprintf UnityModifyFilesystemUri [resourceID])
                (NFSShareDelete_body nfsShareDeleteReq) ;;
              match Gounity.err reply with
              | Some deleteErr =>
                  ret (Some (errors_New
                    ("Delete NFS Share: " ++ nfsShareId ++ " Failed. Error: "
                     ++ Error deleteErr)))
              | None => ret None
              end
          end
    end.

(** FindNASServerById - Find the NAS Server by it's Id. *)
Definition FindNASServerById (f : filesystem) (nasServerId : string)
  : Op f (option NASServer * option error) :=
  if (String.length nasServerId =? 0)%nat then
    ret (None, Some (errors_New "NAS Server Id shouldn't be empty"))
  else
    reply <- executeWithRetryAuthenticate (client f) MethodGet
      (Sprintf UnityApiGetResourceWithFieldsUri
         ["nasServer"; nasServerId; NasServerDisplayfields (client f)])
      nil_body ;;
    match err reply with
    | Some e =>
        ret (None, Some (errors_New
          ("Unable to find NAS Server: " ++ nasServerId ++ ". Error: "
           ++ Error e)))
    | None => ret (Some (asNASServer reply), None)
    end.

(** *** Abbreviations for the statements *)

(** The look-up calls, as the operations build them. *)
Definition getFilesystemById (f : filesystem) (filesystemId : string) : Call :=
  {| method := MethodGet;
     uri := Sprintf UnityApiGetResourceWithFieldsUri
              ["filesystem"; filesystemId; FileSystemDisplayFields (client f)];
     body := nil_body |}.

Definition getFilesystemByName (f : filesystem) (filesystemName : string) : Call :=
  {| method := MethodGet;
     uri := Sprintf UnityApiGetResourceByNameWithFieldsUri
              ["filesystem"; filesystemName; FileSystemDisplayFields (client f)];
     body := nil_body |}.

Definition getNFSShareById (f : filesystem) (nfsShareId : string) : Call :=
  {| method := MethodGet;
     uri := Sprintf UnityApiGetResourceWithFieldsUri
              ["nfsShare"; nfsShareId; NFSShareDisplayfields (client f)];
     body := nil_body |}.

Definition getNFSShareByName (f : filesystem) (nfsSharename : string) : Call :=
  {| method := MethodGet;
     uri := Sprintf UnityApiGetResourceByNameWithFieldsUri
              ["nfsShare"; nfsSharename; NFSShareDisplayfields (client f)];
     body := nil_body |}.

Definition getNASServerById (f : filesystem) (nasServerId : string) : Call :=
  {| method := MethodGet;
     uri := Sprintf UnityApiGetResourceWithFieldsUri
              ["nasServer"; nasServerId; NasServerDisplayfields (client f)];
     body := nil_body |}.

(** A POST to the modify-filesystem URI of a storage resource. *)
Definition postModifyFilesystem (resourceID : string) (b : Body) : Call :=
  {| method := MethodPost;
     uri := Sprintf UnityModifyFilesystemUri [resourceID];
     body := b |}.

(** The state after the executor has answered [call] in state [s]. *)
Definition answered {W : Type} (s : State W) (call : Call) (w : W) : State W :=
  {| world := w; calls := calls s ++ [call] |}.

(** How many of the four host lists of a share's parameters are there. *)
Definition present {A : Type} (p : option A) : nat :=
  match p with
  | Some _ => 1
  | None => 0
  end.

Definition populatedHostLists (p : NFSShareParameters) : nat :=
  present (ReadOnlyHosts p) + present (ReadWriteHosts p)
  + present (ReadOnlyRootAccessHosts p) + present (RootAccessHosts p).

(** The characters of a name in UTF-8: the bytes that do not continue a
    character (those outside 128..191). *)
Definition continues_character (c : ascii) : bool :=
  (128 <=? nat_of_ascii c)%nat && (nat_of_ascii c <=? 191)%nat.

Fixpoint characters (s : string) : nat :=
  match s with
  | EmptyString => 0
  | String c s' =>
      (if continues_character c then 0 else 1) + characters s'
  end.

(** The host list built from the ids. *)
Definition hosts (hostIds : list string) : list HostIdContent :=
  map (fun hostId => {| HostIdContent_ID := hostId |}) hostIds.

(** The body that adds one share to a filesystem. *)
Definition shareCreateBody (name path : string)
  (access : NFSShareDefaultAccess) : Body :=
  FsModifyParameters_body
    {| NFSShares :=
         Some [{| NFSShareCreateParam_Name := name;
                  Path := path;
                  NFSShareCreateParam_NFSShareParameters :=
                    Some {| DefaultAccess := access;
                            ReadOnlyHosts := None;
                            ReadWriteHosts := None;
                            ReadOnlyRootAccessHosts := None;
                            RootAccessHosts := None |} |}] |}.

(** The body that sets the parameters [p] on the share [nfsShareId]. *)
Definition hostAccessBody (nfsShareId : string) (p : NFSShareParameters) : Body :=
  NFSShareModify_body
    {| NFSSharesModifyContent :=
         Some [{| NFSShareModifyContent_NFSShare :=
                    Some {| StorageResourceParam_ID := nfsShareId |};
                  NFSShareModifyContent_NFSShareParameters := Some p |}] |}.

(** The four ways to fill one host list and leave the others nil. *)
Definition onlyReadOnlyHosts (l : list HostIdContent) : NFSShareParameters :=
  {| DefaultAccess := "";
     ReadOnlyHosts := Some l;
     ReadWriteHosts := None;
     ReadOnlyRootAccessHosts := None;
     RootAccessHosts := None |}.

Definition onlyReadWriteHosts (l : list HostIdContent) : NFSShareParameters :=
  {| DefaultAccess := "";
     ReadOnlyHosts := None;
     ReadWriteHosts := Some l;
     ReadOnlyRootAccessHosts := None;
     RootAccessHosts := None |}.

Definition onlyReadOnlyRootAccessHosts (l : list HostIdContent)
  : NFSShareParameters :=
  {| DefaultAccess := "";
     ReadOnlyHosts := None;
     ReadWriteHosts := None;
     ReadOnlyRootAccessHosts := Some l;
     RootAccessHosts := None |}.

Definition onlyRootAccessHosts (l : list HostIdContent) : NFSShareParameters :=
  {| DefaultAccess := "";
     ReadOnlyHosts := None;
     ReadWriteHosts := None;
     ReadOnlyRootAccessHosts := None;
     RootAccessHosts := Some l |}.

(** The DELETE of a storage resource. *)
Definition deleteStorageResource (resourceID : string) : Call :=
  {| method := MethodDelete;
     uri := Sprintf UnityApiGetResourceUri ["storageResource"; resourceID];
     body := nil_body |}.

(** The body that removes the share [nfsShareId] from a filesystem. *)
Definition shareDeleteBody (nfsShareId : string) : Body :=
  NFSShareDelete_body
    {| NFSSharesDeleteContent :=
         Some [{| NFSShareModifyContent_NFSShare :=
                    Some {| StorageResourceParam_ID := nfsShareId |};
                  NFSShareModifyContent_NFSShareParameters := None |}] |}.

(** The share parameters for an access type: the list it selects. *)
Definition hostAccessParameters (accessType : AccessType)
  (hostIds : list string) : NFSShareParameters :=
  if (accessType =? ReadOnlyAccessType)%string then
    onlyReadOnlyHosts (hosts hostIds)
  else if (accessType =? ReadWriteAccessType)%string then
    onlyReadWriteHosts (hosts hostIds)
  else if (accessType =? ReadOnlyRootAccessType)%string then
    onlyReadOnlyRootAccessHosts (hosts hostIds)
  else onlyRootAccessHosts (hosts hostIds).

(** The request [CreateFilesystem] sends once the pool and the two license
    answers are in: the thin and data-reduction fields are set only under a
    license that is installed and valid, the tiering policy only for a pool
    whose FastVP status is not 0. *)
Definition createFilesystemParam
  (name storagepool description nasServer : string) (size : N)
  (tieringPolicy hostIOSize supportedProtocol : Z)
  (isThinEnabled isDataReductionEnabled : bool)
  (pool : StoragePool) (thin dataReduction : LicenseInfo) : FsCreateParam :=
  {| FsCreateParam_Name := name;
     Description := description;
     FsCreateParam_FsParameters :=
       Some {| FsParameters_StoragePool := Some {| PoolId := storagepool |};
               Size := size;
               SupportedProtocol := supportedProtocol;
               HostIOSize := hostIOSize;
               NasServer := Some {| NasServerID_NasServerID := nasServer |};
               FsParameters_FileEventSettings :=
                 {| IsCIFSEnabled := false; IsNFSEnabled := true |};
               IsThinEnabled :=
                 if installed_and_valid thin then FormatBool isThinEnabled
                 else "";
               IsDataReductionEnabled :=
                 if installed_and_valid dataReduction
                 then FormatBool isDataReductionEnabled
                 else "";
               FsParameters_FastVPParameters :=
                 if (Status (PoolFastVP (StoragePoolContent pool)) =? 0)%Z
                 then None
                 else Some {| TieringPolicy := tieringPolicy |} |} |}.

Definition postCreateFilesystem (p : FsCreateParam) : Call :=
  {| method := MethodPost;
     uri := createFilesystemUri;
     body := FsCreateParam_body p |}.

(** The convention of a Go result pair: the value is nil exactly when the
    error is not, and the call has returned. *)
Definition value_xor_error {A : Type}
  (result : option (option A * option error)) : Prop :=
  exists (v : option A) (e : option error),
    result = Some (v, e) /\ (v = None <-> e <> None).

(** *** A small array for examples *)

Definition fs_1 : Filesystem :=
  {| FileContent := {| StorageResource := {| Id := "sv_1" |} |} |}.

Definition okReply : Reply :=
  {| err := None;
     asFilesystem := fs_1;
     asNFSShare := {| NFSShare_Id := "nfs_1"; NFSShare_Name := "share1" |};
     asNASServer := {| NASServer_Id := "nas_1" |} |}.

Definition notFoundReply : Reply :=
  {| err := Some (foreign_error "404 Not Found");
     asFilesystem := {| FileContent := {| StorageResource := {| Id := "" |} |} |};
     asNFSShare := {| NFSShare_Id := ""; NFSShare_Name := "" |};
     asNASServer := {| NASServer_Id := "" |} |}.

(** The array knows one filesystem, one NFS share and one NAS server, each
    under the same key as id and as name. *)
Definition known (kind key : string) : bool :=
  ((kind =? "filesystem") && (key =? "fs_1"))%string
  || ((kind =? "nfsShare") && (key =? "nfs_1"))%string
  || ((kind =? "nasServer") && (key =? "nas_1"))%string.

(** It counts the calls it answers, finds what it knows and accepts every
    POST and DELETE. *)
Definition exampleRespond (w : nat) (call : Call) : nat * Reply :=
  (S w,
   match method call with
   | MethodGet =>
       match operands (uri call) with
       | [kind; key; _] => if known kind key then okReply else notFoundReply
       | _ => notFoundReply
       end
   | MethodPost | MethodDelete => okReply
   end).

Definition exampleFindStoragePoolById (poolId : string)
  : M nat (option StoragePool * option error) :=
  fun s =>
    let call :=
      {| method := MethodGet;
         uri := Sprintf UnityApiGetResourceWithFieldsUri ["pool"; poolId; "id"];
         body := nil_body |} in
    let s' := {| world := S (world s); calls := calls s ++ [call] |} in
    if (poolId =? "pool_1")%string then
      (Some (Some {| StoragePoolContent := {| PoolFastVP := {| Status := 0 |} |} |},
             None), s')
    else
      (Some (None, Some (errors_New "find pool by id failed")), s').

(** Thin provisioning is licensed on the example array, data reduction is
    not. *)
Definition exampleIsFeatureLicensed (featureName : string)
  : M nat (option LicenseInfo * option error) :=
  fun s =>
    let call :=
      {| method := MethodGet;
         uri := Sprintf UnityApiGetResourceWithFieldsUri
                  ["license"; featureName; "isInstalled,isValid"];
         body := nil_body |} in
    let s' := {| world := S (world s); calls := calls s ++ [call] |} in
    let licensed := (featureName =? "THIN_PROVISIONING")%string in
    (Some (Some {| LicenseInfoContent :=
                     {| IsInstalled := licensed; IsValid := licensed |} |},
           None), s').

Definition exampleClient : Client := {|
  World := nat;
  respond := exampleRespond;
  FileSystemDisplayFields := "id,name,storageResource";
  NFSShareDisplayfields := "id,name,filesystem";
  NasServerDisplayfields := "id,name";
  ThinProvisioning := "THIN_PROVISIONING";
  DataReduction := "DATA_REDUCTION";
  FindStoragePoolById := exampleFindStoragePoolById;
  isFeatureLicensed := exampleIsFeatureLicensed
|}.

Definition exampleFilesystem : filesystem := NewFilesystem exampleClient.

(** Before the first call. *)
Definition start : State nat := {| world := 0; calls := [] |}.

(** An array that answers its first two calls and fails from the third
    on, and one that finds what the example array knows but refuses every
    POST and DELETE. *)
Definition forbiddenReply : Reply :=
  {| err := Some (foreign_error "403 Forbidden");
     asFilesystem := {| FileContent := {| StorageResource := {| Id := "" |} |} |};
     asNFSShare := {| NFSShare_Id := ""; NFSShare_Name := "" |};
     asNASServer := {| NASServer_Id := "" |} |}.

Definition flakyRespond (w : nat) (call : Call) : nat * Reply :=
  (S w, if (w <? 2)%nat then okReply else notFoundReply).

Definition readOnlyRespond (w : nat) (call : Call) : nat * Reply :=
  (S w,
   match method call with
   | MethodGet => snd (exampleRespond w call)
   | MethodPost | MethodDelete => forbiddenReply
   end).

Definition withRespond (respond : nat -> Call -> nat * Reply) : filesystem :=
  NewFilesystem
    {| World := nat;
       respond := respond;
       FileSystemDisplayFields := "id,name,storageResource";
       NFSShareDisplayfields := "id,name,filesystem";
       NasServerDisplayfields := "id,name";
       ThinProvisioning := "THIN_PROVISIONING";
       DataReduction := "DATA_REDUCTION";
       FindStoragePoolById := exampleFindStoragePoolById;
       isFeatureLicensed := exampleIsFeatureLicensed |}.

Definition flakyFilesystem : filesystem := withRespond flakyRespond.

Definition readOnlyFilesystem : filesystem := withRespond readOnlyRespond.

(** A name of 63 bytes and one of 64. *)
Definition name63 : string :=
  "abcdefghiabcdefghiabcdefghiabcdefghiabcdefghiabcdefghiabcdefghi".

Definition name64 : string := String "f" name63.

End Gounity.

(** * Properties of the logging helpers *)

Import Api.

Lemma append_assoc (a b c : string) : (a ++ b) ++ c = a ++ (b ++ c).
Proof.
  induction a as [|ch a IH]; simpl; [reflexivity | now rewrite IH].
Qed.

Lemma append_nil_r (a : string) : a ++ "" = a.
Proof.
  induction a as [|ch a IH]; simpl; [reflexivity | now rewrite IH].
Qed.

Section LoggingProperties.

Variable rt : Runtime.

Section AnyReliableWriter.

Context {W : Type} `{ReliableWriter W}.

Lemma Fprint_reliable (w : W) (s : string) :
  exists w', Fprint w s = (w', None) /\ written w' = written w ++ s.
Proof.
  destruct (Fprint_appends w s) as [Herr Hw].
  destruct (Fprint w s) as [w' e]; simpl in *; subst e.
  now exists w'.
Qed.

Lemma write_spaces_reliable (x : nat) :
  forall w : W,
    exists w', write_spaces w x = (w', None)
               /\ written w' = written w ++ spaces x.
Proof.
  induction x as [|x IH]; intros w; simpl.
  - exists w; split; [reflexivity | now rewrite append_nil_r].
  - destruct (Fprint_reliable w " ") as (w1 & -> & Hw1).
    destruct (IH w1) as (w2 & -> & Hw2).
    exists w2; split; [reflexivity|].
    rewrite Hw2, Hw1, append_assoc; reflexivity.
Qed.

Lemma write_lines_reliable (n : Z) (rest : list string) :
  forall (w : W) (l : string),
    exists w', write_lines w l rest n = (w', None)
               /\ written w' =
                  written w
                  ++ String.concat newline
                       (map (fun l => indentation n ++ l) (l :: rest)).
Proof.
  induction rest as [|l' rest IH]; intros w l; simpl.
  - destruct (write_spaces_reliable (Z.to_nat n) w) as (w1 & -> & Hw1).
    destruct (Fprint_reliable w1 l) as (w2 & -> & Hw2).
    exists w2; split; [reflexivity|].
    rewrite Hw2, Hw1, append_assoc; reflexivity.
  - destruct (write_spaces_reliable (Z.to_nat n) w) as (w1 & -> & Hw1).
    destruct (Fprint_reliable w1 l) as (w2 & -> & Hw2).
    destruct (Fprint_reliable w2 newline) as (w3 & -> & Hw3).
    destruct (IH w3 l') as (w4 & -> & Hw4).
    exists w4; split; [reflexivity|].
    rewrite Hw4, Hw3, Hw2, Hw1. simpl.
    rewrite !append_assoc; reflexivity.
Qed.

End AnyReliableWriter.

Lemma length_spaces (k : nat) : String.length (spaces k) = k.
Proof.
  induction k as [|k IH]; simpl; [reflexivity | now rewrite IH].
Qed.

Lemma WriteIndentedN_reliable (W : Type) (HW : Writer W)
  (HR : ReliableWriter W) (w : W) (b : string) (n : Z) :
  exists w', WriteIndentedN rt w b n = (w', None)
             /\ written w' = written w ++ indentedText rt b n.
Proof.
  unfold WriteIndentedN, indentedText.
  destruct (ScanLines rt b) as [|l rest].
  - exists w; split; [reflexivity | now rewrite append_nil_r].
  - apply write_lines_reliable.
Qed.

Lemma copy_lines_appends (tokens : list string) :
  forall w : Buffer, copy_lines w tokens = w ++ terminatedLines tokens.
Proof.
  unfold copy_lines.
  induction tokens as [|t tokens IH]; intros w; simpl.
  - now rewrite append_nil_r.
  - rewrite IH. unfold Fprintln, Fprint, Buffer_Writer; simpl.
    now rewrite !append_assoc.
Qed.

(** C9.  Into a writer whose writes succeed, [WriteIndentedN] writes the
    lines the scanner splits [b] into, each behind [n] spaces, with one
    newline between two lines and none after the last; it returns nil.  When
    the scanner yields no line the writer is left as it was.
    [WriteIndented] is [WriteIndentedN] with four spaces. *)
Theorem WriteIndentedN_writes_indented_lines :
  forall (W : Type) (HW : Writer W) (HR : ReliableWriter W)
         (w : W) (b : string) (n : Z),
    snd (WriteIndentedN rt w b n) = None
    /\ written (fst (WriteIndentedN rt w b n)) =
       written w
       ++ String.concat newline
            (map (fun l => indentation n ++ l) (ScanLines rt b))
    /\ (ScanLines rt b = [] -> WriteIndentedN rt w b n = (w, None))
    /\ WriteIndented rt w b = WriteIndentedN rt w b 4
    /\ (0 <= n -> Z.of_nat (String.length (indentation n)) = n)%Z.
Proof.
  intros W HW HR w b n.
  assert (Hlen : (0 <= n -> Z.of_nat (String.length (indentation n)) = n)%Z).
  { intros Hn; unfold indentation; rewrite length_spaces; lia. }
  destruct (WriteIndentedN_reliable W HW HR w b n) as (w' & Hrun & Hw').
  rewrite Hrun; simpl fst; simpl snd.
  repeat split; auto.
  intros Hnil. unfold WriteIndentedN in Hrun. rewrite Hnil in Hrun.
  now rewrite <- Hrun.
Qed.

(** C8, as the code has it.  [logResponse] asks for the dump of the
    response and, when the dump succeeds, hands one entry to the logger at
    debug level: the banner, then the lines of the dump indented by four
    spaces, each ended by a newline.  [logRequest] asks for the dump of the
    request and hands nothing to the logger.  Both ask for the dump with the
    body exactly when the content type is not the binary one, both return no
    value, and both return whether the dump fails or not. *)
Theorem logging_helpers_effects :
  (forall (req : Request rt) (events : list (Event rt)),
      logRequest rt req events =
      (tt, events
           ++ [DumpRequest_called req
                 (negb (isBinOctetBody rt (Request_Header rt req)))])%list)
  /\ (forall (res : Response rt) (events : list (Event rt)),
      logResponse rt res events =
      (tt, events
           ++ DumpResponse_called res
                (negb (isBinOctetBody rt (Response_Header rt res)))
              :: match DumpResponse rt res
                         (negb (isBinOctetBody rt (Response_Header rt res)))
                 with
                 | (_, Some _) => []
                 | (buf, None) =>
                     [log_Debug
                        (responseBanner
                         ++ terminatedLines
                              (ScanLines rt (indentedText rt buf 4)))]
                 end)%list)
  /\ (forall h : Header,
      isBinOctetBody rt h = true
      <-> Header_Get rt h (HeaderKeyContentType rt)
          = headerValContentTypeBinaryOctetStream rt).
Proof.
  split; [|split].
  - intros req events. unfold logRequest.
    destruct (DumpRequest rt req _) as [buf [e|]]; [reflexivity|].
    unfold WriteIndented.
    match goal with
    | |- context [WriteIndentedN rt ?w buf 4] =>
        destruct (WriteIndentedN_reliable Buffer _ _ w buf 4) as (w' & -> & _)
    end.
    reflexivity.
  - intros res events. unfold logResponse.
    destruct (DumpResponse rt res _) as [buf [e|]]; [reflexivity|].
    unfold WriteIndented.
    destruct (WriteIndentedN_reliable Buffer _ _ ("" : Buffer) buf 4)
      as (bw & -> & Hbw).
    simpl in Hbw. subst bw.
    rewrite copy_lines_appends, <- app_assoc. reflexivity.
  - intros h. unfold isBinOctetBody. apply String.eqb_eq.
Qed.

End LoggingProperties.

(** C9, on an example: three lines, the second one empty, and no line. *)
Lemma WriteIndentedN_writes_indented_lines_witness :
  WriteIndentedN exampleRuntime ("" : Buffer) "" 2 = ("", None)
  /\ fst (WriteIndentedN exampleRuntime ("> " : Buffer)
            ("a" ++ CRLF ++ newline ++ "b" ++ newline) 2)
     = "> " ++ "  a" ++ newline ++ "  " ++ newline ++ "  b"
  /\ Z.of_nat (String.length (indentation 2)) = 2%Z.
Proof.
  destruct (WriteIndentedN_writes_indented_lines exampleRuntime Buffer _ _
              "" "" 2) as (_ & _ & Hnone & _ & Hlen).
  split; [|split].
  - apply Hnone. reflexivity.
  - reflexivity.
  - apply Hlen. lia.
Defined.

(** C8 as the claim has it fails for requests: on a request whose dump
    succeeds, [logRequest] gives the logger nothing, while [logResponse]
    logs the dump of the same message. *)
Lemma logRequest_logs_nothing :
  snd (DumpRequest exampleRuntime jsonMessage true) = None
  /\ existsb is_log_entry (snd (logRequest exampleRuntime jsonMessage [])) = false
  /\ existsb is_log_entry (snd (logResponse exampleRuntime jsonMessage [])) = true.
Proof.
  repeat split; reflexivity.
Qed.

(** * Properties of the filesystem accessor *)

Import Gounity Gounity.types.

Lemma length_eqb_0 (s : string) :
  s <> "" -> (String.length s =? 0)%nat = false.
Proof.
  destruct s; [congruence | reflexivity].
Qed.

Lemma hostIdContents_map (hostIds : list string) :
  hostIdContents hostIds = hosts hostIds.
Proof.
  unfold hostIdContents, hosts.
  enough (Hgen : forall acc,
             fold_left
               (fun hostsIdsContent hostId =>
                  hostsIdsContent ++ [{| HostIdContent_ID := hostId |}])%list
               hostIds acc
             = (acc ++ map (fun hostId => {| HostIdContent_ID := hostId |})
                        hostIds)%list)
    by apply (Hgen []).
  induction hostIds as [|h hostIds IH]; intros acc; simpl.
  - now rewrite app_nil_r.
  - rewrite IH, <- app_assoc. reflexivity.
Qed.

Lemma world_answered (W : Type) (s : State W) (call : Call) (w : W) :
  world (answered s call w) = w.
Proof.
  reflexivity.
Qed.

Lemma calls_answered (W : Type) (s : State W) (call : Call) (w : W) :
  calls (answered s call w) = (calls s ++ [call])%list.
Proof.
  reflexivity.
Qed.

Section AccessorProperties.

Variable f : filesystem.

(** One call of the executor, step by step. *)
Lemma executeWithRetryAuthenticate_run (m : Method) (u : Uri) (b : Body)
  (s : State (World (client f))) :
  executeWithRetryAuthenticate (client f) m u b s
  = (Some (snd (respond (client f) (world s)
                  {| method := m; uri := u; body := b |})),
     answered s {| method := m; uri := u; body := b |}
       (fst (respond (client f) (world s)
               {| method := m; uri := u; body := b |}))).
Proof.
  unfold executeWithRetryAuthenticate, answered.
  destruct (respond _ _ _) as [w reply]; reflexivity.
Qed.

(** The look-ups with an identifier that is not empty: one call, and a
    result read off the reply. *)
Lemma FindFilesystemById_run (filesystemId : string)
  (s : State (World (client f))) (w : World (client f)) (reply : Reply) :
  filesystemId <> "" ->
  respond (client f) (world s) (getFilesystemById f filesystemId) = (w, reply) ->
  FindFilesystemById f filesystemId s
  = (Some match err reply with
          | Some _ => (None, Some FilesystemNotFoundError)
          | None => (Some (asFilesystem reply), None)
          end,
     answered s (getFilesystemById f filesystemId) w).
Proof.
  intros Hid Hr. unfold FindFilesystemById, bind.
  rewrite (length_eqb_0 _ Hid), executeWithRetryAuthenticate_run.
  fold (getFilesystemById f filesystemId). rewrite Hr; simpl.
  destruct (err reply); reflexivity.
Qed.

Lemma FindFilesystemByName_run (filesystemName : string)
  (s : State (World (client f))) (w : World (client f)) (reply : Reply) :
  filesystemName <> "" ->
  respond (client f) (world s) (getFilesystemByName f filesystemName)
  = (w, reply) ->
  FindFilesystemByName f filesystemName s
  = (Some match err reply with
          | Some _ => (None, Some FilesystemNotFoundError)
          | None => (Some (asFilesystem reply), None)
          end,
     answered s (getFilesystemByName f filesystemName) w).
Proof.
  intros Hid Hr. unfold FindFilesystemByName, bind.
  rewrite (length_eqb_0 _ Hid), executeWithRetryAuthenticate_run.
  fold (getFilesystemByName f filesystemName). rewrite Hr; simpl.
  destruct (err reply); reflexivity.
Qed.

Lemma FindNFSShareById_run (nfsShareId : string)
  (s : State (World (client f))) (w : World (client f)) (reply : Reply) :
  nfsShareId <> "" ->
  respond (client f) (world s) (getNFSShareById f nfsShareId) = (w, reply) ->
  FindNFSShareById f nfsShareId s
  = (Some match err reply with
          | Some e =>
              (None,
               Some (errors_New
                 ("Unable to find NFS Share: " ++ nfsShareId ++ ". Error: "
                  ++ Error e)))
          | None => (Some (asNFSShare reply), None)
          end,
     answered s (getNFSShareById f nfsShareId) w).
Proof.
  intros Hid Hr. unfold FindNFSShareById, bind.
  rewrite (length_eqb_0 _ Hid), executeWithRetryAuthenticate_run.
  fold (getNFSShareById f nfsShareId). rewrite Hr; simpl.
  destruct (err reply); reflexivity.
Qed.

Lemma FindNFSShareByName_run (nfsSharename : string)
  (s : State (World (client f))) (w : World (client f)) (reply : Reply) :
  nfsSharename <> "" ->
  respond (client f) (world s) (getNFSShareByName f nfsSharename) = (w, reply) ->
  FindNFSShareByName f nfsSharename s
  = (Some match err reply with
          | Some e =>
              (None,
               Some (errors_New
                 ("Unable to find NFS Share. Error: " ++ Error e)))
          | None => (Some (asNFSShare reply), None)
          end,
     answered s (getNFSShareByName f nfsSharename) w).
Proof.
  intros Hid Hr. unfold FindNFSShareByName, bind.
  rewrite (length_eqb_0 _ Hid), executeWithRetryAuthenticate_run.
  fold (getNFSShareByName f nfsSharename). rewrite Hr; simpl.
  destruct (err reply); reflexivity.
Qed.

Lemma FindNASServerById_run (nasServerId : string)
  (s : State (World (client f))) (w : World (client f)) (reply : Reply) :
  nasServerId <> "" ->
  respond (client f) (world s) (getNASServerById f nasServerId) = (w, reply) ->
  FindNASServerById f nasServerId s
  = (Some match err reply with
          | Some e =>
              (None,
               Some (errors_New
                 ("Unable to find NAS Server: " ++ nasServerId ++ ". Error: "
                  ++ Error e)))
          | None => (Some (asNASServer reply), None)
          end,
     answered s (getNASServerById f nasServerId) w).
Proof.
  intros Hid Hr. unfold FindNASServerById, bind.
  rewrite (length_eqb_0 _ Hid), executeWithRetryAuthenticate_run.
  fold (getNASServerById f nasServerId). rewrite Hr; simpl.
  destruct (err reply); reflexivity.
Qed.

(** C1, as the code has it.  Every operation tests one identifier before
    anything else: the name for [FindFilesystemByName], [CreateFilesystem]
    and [FindNFSShareByName], the id for [FindFilesystemById],
    [DeleteFilesystem], [FindNFSShareById] and [FindNASServerById], and the
    filesystem id for [CreateNFSShare], [ModifyNFSShareHostAccess] and
    [DeleteNFSShare].  When that identifier is the empty string the
    operation returns a validation error and the state is the one it was
    called in: the executor has not been called. *)
Theorem empty_identifier_rejected_before_any_call :
  forall s : State (World (client f)),
    FindFilesystemByName f "" s
    = (Some (None, Some (errors_New "Filesystem Name shouldn't be empty")), s)
    /\ FindFilesystemById f "" s
       = (Some (None, Some (errors_New "Filesystem Id shouldn't be empty")), s)
    /\ (forall storagepool description nasServer size tieringPolicy hostIOSize
               supportedProtocol isThinEnabled isDataReductionEnabled,
           CreateFilesystem f "" storagepool description nasServer size
             tieringPolicy hostIOSize supportedProtocol isThinEnabled
             isDataReductionEnabled s
           = (Some (None,
                    Some (errors_New "filesystem name should not be empty.")),
              s))
    /\ DeleteFilesystem f "" s
       = (Some (Some (errors_New "Filesystem Id cannot be empty")), s)
    /\ (forall name path nfsShareDefaultAccess,
           CreateNFSShare f name path "" nfsShareDefaultAccess s
           = (Some (None, Some (errors_New "Filesystem Id cannot be empty")),
              s))
    /\ FindNFSShareByName f "" s
       = (Some (None, Some (errors_New "NFS Share Name shouldn't be empty")), s)
    /\ FindNFSShareById f "" s
       = (Some (None, Some (errors_New "NFS Share Id shouldn't be empty")), s)
    /\ (forall nfsShareId hostIds accessType,
           ModifyNFSShareHostAccess f "" nfsShareId hostIds accessType s
           = (Some (Some (errors_New "Filesystem Id cannot be empty")), s))
    /\ (forall nfsShareId,
           DeleteNFSShare f "" nfsShareId s
           = (Some (Some (errors_New "Filesystem Id cannot be empty")), s))
    /\ FindNASServerById f "" s
       = (Some (None, Some (errors_New "NAS Server Id shouldn't be empty")), s).
Proof.
  intros s. repeat split; intros; reflexivity.
Qed.

Lemma characters_le_length (s : string) : characters s <= String.length s.
Proof.
  induction s as [|c s IH]; simpl; [lia|].
  destruct (continues_character c); lia.
Qed.

(** C6.  A name of more than 63 bytes, and so any name of more than 63
    characters, is refused by [CreateFilesystem] with a validation error in
    the state it was called in, before the pool look-up or any call of the
    executor; so is the empty name.  A name that is not empty and has at
    most 63 bytes passes: the operation goes on to the pool look-up, and
    when that finds no pool the error is the one about the pool. *)
Theorem CreateFilesystem_name_validation :
  forall (name storagepool description nasServer : string) (size : N)
         (tieringPolicy hostIOSize supportedProtocol : Z)
         (isThinEnabled isDataReductionEnabled : bool)
         (s : State (World (client f))),
    (FsNameMaxLength < String.length name ->
     CreateFilesystem f name storagepool description nasServer size
       tieringPolicy hostIOSize supportedProtocol isThinEnabled
       isDataReductionEnabled s
     = (Some (None,
              Some (errors_New
                ("filesystem name " ++ name
                 ++ " should not exceed 63 characters."))),
        s))
    /\ (FsNameMaxLength < characters name ->
        CreateFilesystem f name storagepool description nasServer size
          tieringPolicy hostIOSize supportedProtocol isThinEnabled
          isDataReductionEnabled s
        = (Some (None,
                 Some (errors_New
                   ("filesystem name " ++ name
                    ++ " should not exceed 63 characters."))),
           s))
    /\ (name = "" ->
        CreateFilesystem f name storagepool description nasServer size
          tieringPolicy hostIOSize supportedProtocol isThinEnabled
          isDataReductionEnabled s
        = (Some (None,
                 Some (errors_New "filesystem name should not be empty.")),
           s))
    /\ (name <> "" -> String.length name <= FsNameMaxLength ->
        forall (err : option error) (s1 : State (World (client f))),
          FindStoragePoolById (client f) storagepool s = (Some (None, err), s1) ->
          CreateFilesystem f name storagepool description nasServer size
            tieringPolicy hostIOSize supportedProtocol isThinEnabled
            isDataReductionEnabled s
          = (Some (None,
                   Some (errors_New
                     ("unable to get PoolID (" ++ storagepool ++ ") Error:"
                      ++ fmt_v err))),
             s1)).
Proof.
  intros.
  assert (Hlong : FsNameMaxLength < String.length name ->
                  CreateFilesystem f name storagepool description nasServer
                    size tieringPolicy hostIOSize supportedProtocol
                    isThinEnabled isDataReductionEnabled s
                  = (Some (None,
                           Some (errors_New
                             ("filesystem name " ++ name
                              ++ " should not exceed 63 characters."))),
                     s)).
  { intros Hlong. unfold CreateFilesystem.
    destruct (String.eqb_spec name "") as [->|Hne]; [simpl in Hlong; lia|].
    apply Nat.ltb_lt in Hlong. rewrite Hlong. reflexivity. }
  unfold CreateFilesystem. split; [|split; [|split]].
  - exact Hlong.
  - intros Hchars. apply Hlong.
    pose proof (characters_le_length name). lia.
  - intros ->. reflexivity.
  - intros Hne Hshort err s1 Hpool.
    apply String.eqb_neq in Hne. rewrite Hne.
    apply Nat.ltb_ge in Hshort. rewrite Hshort.
    unfold bind. rewrite Hpool. reflexivity.
Qed.

(** C2, as the code has it.  [DeleteFilesystem] with an id that is not
    empty, when the look-up of the filesystem reports an error: the result is the not-found error of
    the look-up, and the state is the one the look-up left, with that one
    call and no delete request.  [DeleteNFSShare] with ids that are not
    empty, when the filesystem is found and the look-up of the share reports
    an error: the result is an error saying the share could not be found,
    with the text of the look-up's error, and the calls are the two
    look-ups, with no delete request.  When it is the filesystem that is not
    found, [DeleteNFSShare] returns the filesystem's not-found error after
    that look-up alone. *)
Theorem delete_stops_when_target_not_found :
  (forall (filesystemId : string) (s s1 : State (World (client f)))
          (r : option Filesystem) (e : error),
      filesystemId <> "" ->
      FindFilesystemById f filesystemId s = (Some (r, Some e), s1) ->
      DeleteFilesystem f filesystemId s = (Some (Some e), s1)
      /\ e = FilesystemNotFoundError
      /\ calls s1 = (calls s ++ [getFilesystemById f filesystemId])%list)
  /\ (forall (filesystemId nfsShareId : string)
             (s s1 s2 : State (World (client f)))
             (fs : Filesystem) (r : option NFSShare) (e : error),
      filesystemId <> "" ->
      nfsShareId <> "" ->
      FindFilesystemById f filesystemId s = (Some (Some fs, None), s1) ->
      FindNFSShareById f nfsShareId s1 = (Some (r, Some e), s2) ->
      DeleteNFSShare f filesystemId nfsShareId s
      = (Some (Some (errors_New
                 ("Unable to find NFS Share. Error: " ++ Error e))), s2)
      /\ e = errors_New
               ("Unable to find NFS Share: " ++ nfsShareId ++ ". Error: "
                ++ fmt_v (err (snd (respond (client f) (world s1)
                                      (getNFSShareById f nfsShareId)))))
      /\ calls s2 = (calls s ++ [getFilesystemById f filesystemId;
                                 getNFSShareById f nfsShareId])%list)
  /\ (forall (filesystemId nfsShareId : string)
             (s s1 : State (World (client f)))
             (r : option Filesystem) (e : error),
      filesystemId <> "" ->
      FindFilesystemById f filesystemId s = (Some (r, Some e), s1) ->
      DeleteNFSShare f filesystemId nfsShareId s
      = (Some (Some FilesystemNotFoundError), s1)
      /\ calls s1 = (calls s ++ [getFilesystemById f filesystemId])%list).
Proof.
  split; [|split].
  - intros filesystemId s s1 r e Hid Hfind.
    unfold DeleteFilesystem, bind.
    rewrite (length_eqb_0 _ Hid), Hfind.
    destruct (respond (client f) (world s) (getFilesystemById f filesystemId))
      as [w reply] eqn:Hr.
    rewrite (FindFilesystemById_run _ _ _ _ Hid Hr) in Hfind.
    destruct (err reply); inversion Hfind; subst.
    repeat split; reflexivity.
  - intros filesystemId nfsShareId s s1 s2 fs r e Hfs Hnfs Hfind Hshare.
    unfold DeleteNFSShare, bind, deref.
    rewrite (length_eqb_0 _ Hfs), Hfind, (length_eqb_0 _ Hnfs), Hshare.
    destruct (respond (client f) (world s) (getFilesystemById f filesystemId))
      as [w reply] eqn:Hr.
    rewrite (FindFilesystemById_run _ _ _ _ Hfs Hr) in Hfind.
    destruct (respond (client f) (world s1) (getNFSShareById f nfsShareId))
      as [w2 reply2] eqn:Hr2.
    rewrite (FindNFSShareById_run _ _ _ _ Hnfs Hr2) in Hshare.
    destruct (err reply); inversion Hfind; subst.
    simpl. destruct (err reply2); inversion Hshare; subst.
    repeat split; try reflexivity.
    simpl. rewrite <- app_assoc. reflexivity.
  - intros filesystemId nfsShareId s s1 r e Hfs Hfind.
    unfold DeleteNFSShare, bind.
    rewrite (length_eqb_0 _ Hfs), Hfind.
    destruct (respond (client f) (world s) (getFilesystemById f filesystemId))
      as [w reply] eqn:Hr.
    rewrite (FindFilesystemById_run _ _ _ _ Hfs Hr) in Hfind.
    destruct (err reply); inversion Hfind; subst.
    split; reflexivity.
Qed.

(** C3.  [CreateFilesystem] with a name that passes validation and a pool
    that is found.  When both license answers are obtained, and thin
    provisioning is asked for while its license is not installed and valid,
    or data reduction is asked for while its license is not installed and
    valid, the result is an error and the state is the one the second
    license look-up left: [CreateFilesystem] has made no call of the
    executor of its own, and the POST of the createFilesystem action is not
    sent.  It is not sent either when a license look-up fails: the result is
    then the error about the license information. *)
Theorem CreateFilesystem_unlicensed_feature :
  forall (name storagepool description nasServer : string) (size : N)
         (tieringPolicy hostIOSize supportedProtocol : Z)
         (isThinEnabled isDataReductionEnabled : bool)
         (s s1 s2 : State (World (client f)))
         (pool : StoragePool) (thinResp : option LicenseInfo)
         (thinErr : option error),
    name <> "" ->
    String.length name <= FsNameMaxLength ->
    FindStoragePoolById (client f) storagepool s = (Some (Some pool, None), s1) ->
    isFeatureLicensed (client f) (ThinProvisioning (client f)) s1
    = (Some (thinResp, thinErr), s2) ->
    (thinErr <> None ->
     CreateFilesystem f name storagepool description nasServer size
       tieringPolicy hostIOSize supportedProtocol isThinEnabled
       isDataReductionEnabled s
     = (Some (None,
              Some (errors_New
                ("Unable to get license info for feature: "
                 ++ ThinProvisioning (client f)))),
        s2))
    /\ (forall (dataReductionResp : option LicenseInfo) (e : error)
               (s3 : State (World (client f))),
        thinErr = None ->
        isFeatureLicensed (client f) (DataReduction (client f)) s2
        = (Some (dataReductionResp, Some e), s3) ->
        CreateFilesystem f name storagepool description nasServer size
          tieringPolicy hostIOSize supportedProtocol isThinEnabled
          isDataReductionEnabled s
        = (Some (None,
                 Some (errors_New
                   ("Unable to get license info for feature: "
                    ++ DataReduction (client f)))),
           s3))
    /\ (forall (thin dataReduction : LicenseInfo)
               (s3 : State (World (client f))),
        thinResp = Some thin ->
        thinErr = None ->
        isFeatureLicensed (client f) (DataReduction (client f)) s2
        = (Some (Some dataReduction, None), s3) ->
        (isThinEnabled = true /\ installed_and_valid thin = false)
        \/ (isDataReductionEnabled = true
            /\ installed_and_valid dataReduction = false) ->
        exists text : string,
          CreateFilesystem f name storagepool description nasServer size
            tieringPolicy hostIOSize supportedProtocol isThinEnabled
            isDataReductionEnabled s
          = (Some (None, Some (errors_New text)), s3)
          /\ (text = "Thin Provisioning is not supported on array and hence cannot create Filesystem."
              \/ text = "Data Reduction is not supported on array and hence cannot create Filesystem.")).
Proof.
  intros name storagepool description nasServer size tieringPolicy hostIOSize
    supportedProtocol isThinEnabled isDataReductionEnabled s s1 s2 pool
    thinResp thinErr Hne Hshort Hpool Hthin.
  unfold CreateFilesystem.
  apply String.eqb_neq in Hne. rewrite Hne.
  apply Nat.ltb_ge in Hshort. rewrite Hshort.
  split; [|split].
  - intros Herr.
    unfold bind at 1. rewrite Hpool.
    unfold bind at 1. rewrite Hthin.
    destruct thinErr; [reflexivity | contradiction].
  - intros dataReductionResp e s3 -> Hdr.
    unfold bind at 1. rewrite Hpool.
    unfold bind at 1. rewrite Hthin.
    unfold bind at 1. rewrite Hdr. reflexivity.
  - intros thin dataReduction s3 -> -> Hdr Hcase.
    unfold bind at 1. rewrite Hpool.
    unfold bind at 1. rewrite Hthin.
    unfold bind at 1. rewrite Hdr.
    unfold bind, deref.
    destruct Hcase as [[-> Hno] | [-> Hno]].
    + rewrite Hno. eexists; split; [reflexivity | now left].
    + destruct (installed_and_valid thin); [|destruct isThinEnabled];
        try rewrite Hno; eexists; split; try reflexivity; auto.
Qed.

(** C4.  The scenario: the look-up of filesystem fs_1 is answered with a
    filesystem whose storage resource is sv_1, the modify call is accepted,
    and the look-up is answered again.  Then [CreateNFSShare] makes exactly
    these three calls in this order, the POST going to the modify-filesystem
    URI of sv_1 with the share's name, path and default access, and returns
    the filesystem of the second look-up. *)
Theorem CreateNFSShare_scenario :
  forall (s : State (World (client f))) (w1 w2 w3 : World (client f))
         (r1 r2 r3 : Reply),
    respond (client f) (world s) (getFilesystemById f "fs_1") = (w1, r1) ->
    err r1 = None ->
    Id (StorageResource (FileContent (asFilesystem r1))) = "sv_1" ->
    respond (client f) w1
      (postModifyFilesystem "sv_1"
         (shareCreateBody "share1" "/path" ReadOnlyDefaultAccess))
    = (w2, r2) ->
    err r2 = None ->
    respond (client f) w2 (getFilesystemById f "fs_1") = (w3, r3) ->
    err r3 = None ->
    CreateNFSShare f "share1" "/path" "fs_1" ReadOnlyDefaultAccess s
    = (Some (Some (asFilesystem r3), None),
       {| world := w3;
          calls := calls s
                   ++ [getFilesystemById f "fs_1";
                       postModifyFilesystem "sv_1"
                         (shareCreateBody "share1" "/path" ReadOnlyDefaultAccess);
                       getFilesystemById f "fs_1"] |}).
Proof.
  intros s w1 w2 w3 r1 r2 r3 H1 E1 Hsv H2 E2 H3 E3.
  assert (Hid : "fs_1" <> "") by discriminate.
  unfold CreateNFSShare. simpl (String.length "fs_1" =? 0)%nat. cbv iota.
  unfold bind at 1.
  rewrite (FindFilesystemById_run _ _ _ _ Hid H1), E1.
  unfold bind at 1, deref.
  unfold bind at 1.
  rewrite executeWithRetryAuthenticate_run, Hsv.
  fold (shareCreateBody "share1" "/path" ReadOnlyDefaultAccess).
  fold (postModifyFilesystem "sv_1"
          (shareCreateBody "share1" "/path" ReadOnlyDefaultAccess)).
  rewrite world_answered, H2. cbn [fst snd]. rewrite E2.
  unfold bind.
  rewrite (FindFilesystemById_run "fs_1" _ w3 r3 Hid); [|exact H3].
  rewrite E3. unfold ret, answered; simpl.
  rewrite <- !app_assoc. reflexivity.
Qed.

(** C5.  Whenever [ModifyNFSShareHostAccess] gets to its modify call, that
    is with a filesystem id that is not empty and a filesystem that is
    found, the calls are the look-up and one POST whose share parameters
    have exactly one of the four host lists.  For the access type READ_ONLY
    it is the read-only list, holding the given host ids, and the other
    three are nil; READ_WRITE and READ_ONLY_ROOT fill their own list in the
    same way. *)
Theorem ModifyNFSShareHostAccess_fills_one_host_list :
  forall (filesystemId nfsShareId : string) (hostIds : list string)
         (accessType : AccessType) (s : State (World (client f)))
         (w1 : World (client f)) (r1 : Reply),
    filesystemId <> "" ->
    respond (client f) (world s) (getFilesystemById f filesystemId) = (w1, r1) ->
    err r1 = None ->
    exists p : NFSShareParameters,
      calls (snd (ModifyNFSShareHostAccess f filesystemId nfsShareId hostIds
                    accessType s))
      = (calls s
         ++ [getFilesystemById f filesystemId;
             postModifyFilesystem
               (Id (StorageResource (FileContent (asFilesystem r1))))
               (hostAccessBody nfsShareId p)])%list
      /\ populatedHostLists p = 1
      /\ (accessType = ReadOnlyAccessType ->
          p = onlyReadOnlyHosts (hosts hostIds))
      /\ (accessType = ReadWriteAccessType ->
          p = onlyReadWriteHosts (hosts hostIds))
      /\ (accessType = ReadOnlyRootAccessType ->
          p = onlyReadOnlyRootAccessHosts (hosts hostIds)).
Proof.
  intros filesystemId nfsShareId hostIds accessType s w1 r1 Hid H1 E1.
  unfold ModifyNFSShareHostAccess.
  rewrite (length_eqb_0 _ Hid).
  unfold bind at 1.
  rewrite (FindFilesystemById_run _ _ _ _ Hid H1), E1.
  unfold bind at 1, deref.
  unfold bind. rewrite executeWithRetryAuthenticate_run.
  rewrite hostIdContents_map.
  exists (if (accessType =? ReadOnlyAccessType)%string then
            onlyReadOnlyHosts (hosts hostIds)
          else if (accessType =? ReadWriteAccessType)%string then
            onlyReadWriteHosts (hosts hostIds)
          else if (accessType =? ReadOnlyRootAccessType)%string then
            onlyReadOnlyRootAccessHosts (hosts hostIds)
          else onlyRootAccessHosts (hosts hostIds)).
  split.
  - destruct (err (snd _)); unfold ret, answered; simpl;
      rewrite <- !app_assoc; reflexivity.
  - destruct (String.eqb_spec accessType ReadOnlyAccessType) as [->|N1];
      [repeat split; try reflexivity; discriminate|].
    destruct (String.eqb_spec accessType ReadWriteAccessType) as [->|N2];
      [repeat split; try reflexivity; discriminate|].
    destruct (String.eqb_spec accessType ReadOnlyRootAccessType) as [->|N3];
      [repeat split; try reflexivity; discriminate|].
    repeat split; try reflexivity; intros; contradiction.
Qed.

(** C10.  [ModifyNFSShareHostAccess] has no test that refuses an access
    type.  For every access type other than READ_ONLY, READ_WRITE and
    READ_ONLY_ROOT, be it READ_WRITE_ROOT or any other string, the modify
    call carries the given host ids in the root-access list and nothing in
    the other three, and the result is what the executor answers to that
    call: nil when it accepts it. *)
Theorem ModifyNFSShareHostAccess_other_access_type_is_root_access :
  forall (filesystemId nfsShareId : string) (hostIds : list string)
         (accessType : AccessType) (s : State (World (client f)))
         (w1 w2 : World (client f)) (r1 r2 : Reply),
    filesystemId <> "" ->
    accessType <> ReadOnlyAccessType ->
    accessType <> ReadWriteAccessType ->
    accessType <> ReadOnlyRootAccessType ->
    respond (client f) (world s) (getFilesystemById f filesystemId) = (w1, r1) ->
    err r1 = None ->
    respond (client f) w1
      (postModifyFilesystem
         (Id (StorageResource (FileContent (asFilesystem r1))))
         (hostAccessBody nfsShareId (onlyRootAccessHosts (hosts hostIds))))
    = (w2, r2) ->
    ModifyNFSShareHostAccess f filesystemId nfsShareId hostIds accessType s
    = (Some match err r2 with
            | Some e =>
                Some (errors_New
                  ("Modify NFS Share failed. Error: " ++ Error e))
            | None => None
            end,
       {| world := w2;
          calls := calls s
                   ++ [getFilesystemById f filesystemId;
                       postModifyFilesystem
                         (Id (StorageResource (FileContent (asFilesystem r1))))
                         (hostAccessBody nfsShareId
                            (onlyRootAccessHosts (hosts hostIds)))] |}).
Proof.
  intros filesystemId nfsShareId hostIds accessType s w1 w2 r1 r2
    Hid N1 N2 N3 H1 E1 H2.
  unfold ModifyNFSShareHostAccess.
  rewrite (length_eqb_0 _ Hid).
  unfold bind at 1.
  rewrite (FindFilesystemById_run _ _ _ _ Hid H1), E1.
  unfold bind at 1, deref.
  apply String.eqb_neq in N1, N2, N3. rewrite N1, N2, N3.
  unfold bind. rewrite executeWithRetryAuthenticate_run.
  rewrite hostIdContents_map.
  fold (onlyRootAccessHosts (hosts hostIds)).
  fold (hostAccessBody nfsShareId (onlyRootAccessHosts (hosts hostIds))).
  fold (postModifyFilesystem
          (Id (StorageResource (FileContent (asFilesystem r1))))
          (hostAccessBody nfsShareId (onlyRootAccessHosts (hosts hostIds)))).
  rewrite world_answered, H2. cbn [fst snd].
  destruct (err r2); unfold ret, answered; simpl;
    rewrite <- !app_assoc; reflexivity.
Qed.

(** C7, as the code has it.  With an identifier that is not empty and an
    executor call that fails, the two filesystem look-ups return the one
    value [FilesystemNotFoundError], which a caller can compare with.  The
    look-ups of an NFS share and of a NAS server return an error built for
    the occasion, whose text carries the executor's error (and, by id, the
    id); there is no sentinel for them. *)
Theorem lookup_failure_errors :
  forall (id : string) (s : State (World (client f)))
         (w : World (client f)) (reply : Reply) (e : error),
    id <> "" ->
    err reply = Some e ->
    (respond (client f) (world s) (getFilesystemByName f id) = (w, reply) ->
     FindFilesystemByName f id s
     = (Some (None, Some FilesystemNotFoundError),
        answered s (getFilesystemByName f id) w))
    /\ (respond (client f) (world s) (getFilesystemById f id) = (w, reply) ->
        FindFilesystemById f id s
        = (Some (None, Some FilesystemNotFoundError),
           answered s (getFilesystemById f id) w))
    /\ (respond (client f) (world s) (getNFSShareByName f id) = (w, reply) ->
        FindNFSShareByName f id s
        = (Some (None,
                 Some (errors_New
                   ("Unable to find NFS Share. Error: " ++ Error e))),
           answered s (getNFSShareByName f id) w))
    /\ (respond (client f) (world s) (getNFSShareById f id) = (w, reply) ->
        FindNFSShareById f id s
        = (Some (None,
                 Some (errors_New
                   ("Unable to find NFS Share: " ++ id ++ ". Error: "
                    ++ Error e))),
           answered s (getNFSShareById f id) w))
    /\ (respond (client f) (world s) (getNASServerById f id) = (w, reply) ->
        FindNASServerById f id s
        = (Some (None,
                 Some (errors_New
                   ("Unable to find NAS Server: " ++ id ++ ". Error: "
                    ++ Error e))),
           answered s (getNASServerById f id) w)).
Proof.
  intros id s w reply e Hid He.
  repeat split; intros Hr.
  - rewrite (FindFilesystemByName_run _ _ _ _ Hid Hr), He; reflexivity.
  - rewrite (FindFilesystemById_run _ _ _ _ Hid Hr), He; reflexivity.
  - rewrite (FindNFSShareByName_run _ _ _ _ Hid Hr), He; reflexivity.
  - rewrite (FindNFSShareById_run _ _ _ _ Hid Hr), He; reflexivity.
  - rewrite (FindNASServerById_run _ _ _ _ Hid Hr), He; reflexivity.
Qed.

End AccessorProperties.


(** C1 as the claim has it fails for the share id of [DeleteNFSShare] and
    of [ModifyNFSShareHostAccess].  With an empty share id and a filesystem
    the array knows, [DeleteNFSShare] returns its validation error after one
    call of the executor; with a filesystem the array does not know it
    returns the not-found error, after one call as well; and
    [ModifyNFSShareHostAccess] sends the modify request and succeeds. *)
Lemma empty_share_id_reaches_the_executor :
  DeleteNFSShare exampleFilesystem "fs_1" "" start
  = (Some (Some (errors_New "NFS Share Id cannot be empty")),
     {| world := 1; calls := [getFilesystemById exampleFilesystem "fs_1"] |})
  /\ DeleteNFSShare exampleFilesystem "fs_2" "" start
     = (Some (Some FilesystemNotFoundError),
        {| world := 1; calls := [getFilesystemById exampleFilesystem "fs_2"] |})
  /\ fst (ModifyNFSShareHostAccess exampleFilesystem "fs_1" "" ["host_1"]
            ReadOnlyAccessType start) = Some None
  /\ List.length
       (calls (snd (ModifyNFSShareHostAccess exampleFilesystem "fs_1" ""
                      ["host_1"] ReadOnlyAccessType start))) = 2%nat.
Proof.
  repeat split; reflexivity.
Qed.

(** C6 on the example array: a name of 64 bytes and the empty name are
    refused with no call made, a name of 63 bytes gets as far as the pool
    look-up. *)
Lemma CreateFilesystem_name_validation_witness :
  CreateFilesystem exampleFilesystem name64 "pool_1" "" "nas_1" 1 0 0 0
    false false start
  = (Some (None,
           Some (errors_New
             ("filesystem name " ++ name64
              ++ " should not exceed 63 characters."))),
     start)
  /\ CreateFilesystem exampleFilesystem "" "pool_1" "" "nas_1" 1 0 0 0
       false false start
     = (Some (None, Some (errors_New "filesystem name should not be empty.")),
        start)
  /\ fst (CreateFilesystem exampleFilesystem name63 "pool_2" "" "nas_1" 1 0 0 0
            false false start)
     = Some (None,
             Some (errors_New
               "unable to get PoolID (pool_2) Error:find pool by id failed")).
Proof.
  split; [|split].
  - apply (CreateFilesystem_name_validation exampleFilesystem name64).
    vm_compute. lia.
  - apply (CreateFilesystem_name_validation exampleFilesystem "").
    reflexivity.
  - destruct (CreateFilesystem_name_validation exampleFilesystem name63
                "pool_2" "" "nas_1" 1 0 0 0 false false start)
      as (_ & _ & _ & Hpass).
    rewrite (Hpass ltac:(discriminate) ltac:(vm_compute; lia)
               (Some (errors_New "find pool by id failed"))
               (snd (exampleFindStoragePoolById "pool_2" start))
               eq_refl).
    reflexivity.
Defined.

(** C2 on the example array: a filesystem and a share it does not know. *)
Lemma delete_stops_when_target_not_found_witness :
  DeleteFilesystem exampleFilesystem "fs_2" start
  = (Some (Some FilesystemNotFoundError),
     {| world := 1; calls := [getFilesystemById exampleFilesystem "fs_2"] |})
  /\ DeleteNFSShare exampleFilesystem "fs_1" "nfs_2" start
     = (Some (Some (errors_New
          "Unable to find NFS Share. Error: Unable to find NFS Share: nfs_2. Error: 404 Not Found")),
        {| world := 2;
           calls := [getFilesystemById exampleFilesystem "fs_1";
                     getNFSShareById exampleFilesystem "nfs_2"] |})
  /\ DeleteNFSShare exampleFilesystem "fs_2" "nfs_1" start
     = (Some (Some FilesystemNotFoundError),
        {| world := 1; calls := [getFilesystemById exampleFilesystem "fs_2"] |}).
Proof.
  destruct (delete_stops_when_target_not_found exampleFilesystem)
    as (Hfs & Hshare & Hfirst).
  split; [|split].
  - apply (Hfs "fs_2" start _ None FilesystemNotFoundError);
      [discriminate | reflexivity].
  - apply (Hshare "fs_1" "nfs_2" start
             {| world := 1;
                calls := [getFilesystemById exampleFilesystem "fs_1"] |}
             _ fs_1 None
             (errors_New "Unable to find NFS Share: nfs_2. Error: 404 Not Found"));
      [discriminate | discriminate | reflexivity | reflexivity].
  - apply (Hfirst "fs_2" "nfs_1" start _ None FilesystemNotFoundError);
      [discriminate | reflexivity].
Defined.

(** C2 as the claim has it fails for [DeleteNFSShare]: when the look-up of
    the share reports it as not found, the error that comes back is not the
    error of that look-up, and not the filesystem sentinel either, but a new
    error built around the text of the look-up's error.  No delete request
    is sent. *)
Lemma DeleteNFSShare_wraps_the_lookup_error :
  fst (FindNFSShareById exampleFilesystem "nfs_2"
         (snd (FindFilesystemById exampleFilesystem "fs_1" start)))
  = Some (None,
          Some (errors_New
            "Unable to find NFS Share: nfs_2. Error: 404 Not Found"))
  /\ fst (DeleteNFSShare exampleFilesystem "fs_1" "nfs_2" start)
     = Some (Some (errors_New
          "Unable to find NFS Share. Error: Unable to find NFS Share: nfs_2. Error: 404 Not Found"))
  /\ fst (DeleteNFSShare exampleFilesystem "fs_1" "nfs_2" start)
     <> Some (Some (errors_New
          "Unable to find NFS Share: nfs_2. Error: 404 Not Found"))
  /\ fst (DeleteNFSShare exampleFilesystem "fs_1" "nfs_2" start)
     <> Some (Some FilesystemNotFoundError)
  /\ calls (snd (DeleteNFSShare exampleFilesystem "fs_1" "nfs_2" start))
     = [getFilesystemById exampleFilesystem "fs_1";
        getNFSShareById exampleFilesystem "nfs_2"].
Proof.
  refine (conj _ (conj _ (conj _ (conj _ _)))).
  - reflexivity.
  - reflexivity.
  - vm_compute. discriminate.
  - vm_compute. discriminate.
  - reflexivity.
Qed.

(** C3 on the example array, where data reduction is not licensed: the
    three look-ups are the only calls. *)
Lemma CreateFilesystem_unlicensed_feature_witness :
  exists text : string,
    CreateFilesystem exampleFilesystem "fs" "pool_1" "" "nas_1" 1 0 0 0
      false true start
    = (Some (None, Some (errors_New text)),
       {| world := 3;
          calls :=
            [{| method := MethodGet;
                uri := Sprintf UnityApiGetResourceWithFieldsUri
                         ["pool"; "pool_1"; "id"];
                body := nil_body |};
             {| method := MethodGet;
                uri := Sprintf UnityApiGetResourceWithFieldsUri
                         ["license"; "THIN_PROVISIONING"; "isInstalled,isValid"];
                body := nil_body |};
             {| method := MethodGet;
                uri := Sprintf UnityApiGetResourceWithFieldsUri
                         ["license"; "DATA_REDUCTION"; "isInstalled,isValid"];
                body := nil_body |}] |})
    /\ (text = "Thin Provisioning is not supported on array and hence cannot create Filesystem."
        \/ text = "Data Reduction is not supported on array and hence cannot create Filesystem.").
Proof.
  destruct (CreateFilesystem_unlicensed_feature exampleFilesystem
              "fs" "pool_1" "" "nas_1" 1 0 0 0 false true start
              (snd (exampleFindStoragePoolById "pool_1" start))
              (snd (exampleIsFeatureLicensed "THIN_PROVISIONING"
                      (snd (exampleFindStoragePoolById "pool_1" start))))
              {| StoragePoolContent := {| PoolFastVP := {| Status := 0 |} |} |}
              (Some {| LicenseInfoContent :=
                         {| IsInstalled := true; IsValid := true |} |})
              None)
    as (_ & _ & Hmain).
  - discriminate.
  - vm_compute. lia.
  - reflexivity.
  - reflexivity.
  - apply (Hmain
             {| LicenseInfoContent := {| IsInstalled := true; IsValid := true |} |}
             {| LicenseInfoContent := {| IsInstalled := false; IsValid := false |} |}
             {| world := 3; calls := _ |}).
    + reflexivity.
    + reflexivity.
    + reflexivity.
    + right. split; reflexivity.
Defined.

(** C4 on the example array. *)
Lemma CreateNFSShare_scenario_witness :
  CreateNFSShare exampleFilesystem "share1" "/path" "fs_1"
    ReadOnlyDefaultAccess start
  = (Some (Some fs_1, None),
     {| world := 3;
        calls := [getFilesystemById exampleFilesystem "fs_1";
                  postModifyFilesystem "sv_1"
                    (shareCreateBody "share1" "/path" "1");
                  getFilesystemById exampleFilesystem "fs_1"] |}).
Proof.
  apply (CreateNFSShare_scenario exampleFilesystem start 1 2 3
           okReply okReply okReply); reflexivity.
Defined.

(** C5 on the example array, for READ_ONLY and one host. *)
Lemma ModifyNFSShareHostAccess_fills_one_host_list_witness :
  exists p : NFSShareParameters,
    calls (snd (ModifyNFSShareHostAccess exampleFilesystem "fs_1" "nfs_1"
                  ["host_1"] ReadOnlyAccessType start))
    = [getFilesystemById exampleFilesystem "fs_1";
       postModifyFilesystem "sv_1" (hostAccessBody "nfs_1" p)]
    /\ populatedHostLists p = 1
    /\ p = onlyReadOnlyHosts [{| HostIdContent_ID := "host_1" |}].
Proof.
  destruct (ModifyNFSShareHostAccess_fills_one_host_list exampleFilesystem
              "fs_1" "nfs_1" ["host_1"] ReadOnlyAccessType start 1 okReply)
    as (p & Hcalls & Hone & Hro & _).
  - discriminate.
  - reflexivity.
  - reflexivity.
  - exists p. split; [exact Hcalls | split; [exact Hone | now apply Hro]].
Defined.

(** C10 on the example array, for an access type that is no constant of
    the package. *)
Lemma ModifyNFSShareHostAccess_other_access_type_is_root_access_witness :
  ModifyNFSShareHostAccess exampleFilesystem "fs_1" "nfs_1" ["host_1"]
    "read-only" start
  = (Some None,
     {| world := 2;
        calls := [getFilesystemById exampleFilesystem "fs_1";
                  postModifyFilesystem "sv_1"
                    (hostAccessBody "nfs_1"
                       (onlyRootAccessHosts
                          [{| HostIdContent_ID := "host_1" |}]))] |}).
Proof.
  apply (ModifyNFSShareHostAccess_other_access_type_is_root_access
           exampleFilesystem "fs_1" "nfs_1" ["host_1"] "read-only" start
           1 2 okReply okReply);
    try discriminate; reflexivity.
Defined.

(** C7 on the example array: what each look-up returns for a key the array
    does not know. *)
Lemma lookup_failure_errors_witness :
  fst (FindFilesystemByName exampleFilesystem "x_9" start)
  = Some (None, Some FilesystemNotFoundError)
  /\ fst (FindFilesystemById exampleFilesystem "x_9" start)
     = Some (None, Some FilesystemNotFoundError)
  /\ fst (FindNFSShareByName exampleFilesystem "x_9" start)
     = Some (None,
             Some (errors_New "Unable to find NFS Share. Error: 404 Not Found"))
  /\ fst (FindNFSShareById exampleFilesystem "x_9" start)
     = Some (None,
             Some (errors_New
               "Unable to find NFS Share: x_9. Error: 404 Not Found"))
  /\ fst (FindNASServerById exampleFilesystem "x_9" start)
     = Some (None,
             Some (errors_New
               "Unable to find NAS Server: x_9. Error: 404 Not Found")).
Proof.
  destruct (lookup_failure_errors exampleFilesystem "x_9" start 1
              notFoundReply (foreign_error "404 Not Found")
              ltac:(discriminate) eq_refl)
    as (H1 & H2 & H3 & H4 & H5).
  refine (conj _ (conj _ (conj _ (conj _ _)))).
  - rewrite (H1 eq_refl). reflexivity.
  - rewrite (H2 eq_refl). reflexivity.
  - rewrite (H3 eq_refl). reflexivity.
  - rewrite (H4 eq_refl). reflexivity.
  - rewrite (H5 eq_refl). reflexivity.
Defined.

(** C7 as the claim has it fails for NFS shares and NAS servers: no single
    error value is what every failed look-up of a share returns, and what
    such a look-up returns is not the filesystem sentinel either. *)
Lemma share_and_server_lookups_have_no_sentinel :
  ~ (exists sentinel : error,
        forall nfsShareId : string,
          nfsShareId <> "" ->
          err (snd (exampleRespond 0
                      (getNFSShareById exampleFilesystem nfsShareId)))
          <> None ->
          fst (FindNFSShareById exampleFilesystem nfsShareId start)
          = Some (None, Some sentinel))
  /\ fst (FindNFSShareById exampleFilesystem "nfs_2" start)
     <> Some (None, Some FilesystemNotFoundError)
  /\ fst (FindNFSShareByName exampleFilesystem "share2" start)
     <> Some (None, Some FilesystemNotFoundError)
  /\ fst (FindNASServerById exampleFilesystem "nas_2" start)
     <> Some (None, Some FilesystemNotFoundError).
Proof.
  split; [|repeat split; discriminate].
  intros [sentinel Hall].
  pose proof (Hall "nfs_2" ltac:(discriminate) ltac:(discriminate)) as H2.
  pose proof (Hall "nfs_3" ltac:(discriminate) ltac:(discriminate)) as H3.
  vm_compute in H2, H3. congruence.
Qed.

(** * Further properties of the logging helpers *)

Section AnyWriter.

Context {W : Type} `{Writer W}.

Lemma write_all_app (a b : list string) :
  forall w : W,
    write_all w (a ++ b)
    = match write_all w a with
      | (w1, Some e) => (w1, Some e)
      | (w1, None) => write_all w1 b
      end.
Proof.
  induction a as [|p a IH]; intros w; simpl; [reflexivity|].
  destruct (Fprint w p) as [w1 [e|]]; [reflexivity | apply IH].
Qed.

Lemma write_spaces_write_all (x : nat) :
  forall w : W, write_spaces w x = write_all w (repeat " " x).
Proof.
  induction x as [|x IH]; intros w; simpl; [reflexivity|].
  destruct (Fprint w " ") as [w1 [e|]]; [reflexivity | apply IH].
Qed.

Lemma write_lines_write_all (n : Z) (rest : list string) :
  forall (w : W) (l : string),
    write_lines w l rest n = write_all w (pieces (Z.to_nat n) l rest).
Proof.
  induction rest as [|l' rest IH]; intros w l.
  - simpl. rewrite write_all_app, write_spaces_write_all.
    destruct (write_all w (repeat " " (Z.to_nat n))) as [w1 [e|]];
      [reflexivity|].
    simpl. destruct (Fprint w1 l) as [w2 [e|]]; reflexivity.
  - cbn [write_lines pieces].
    rewrite write_all_app, write_spaces_write_all.
    destruct (write_all w (repeat " " (Z.to_nat n))) as [w1 [e|]];
      [reflexivity|].
    cbn [write_all].
    destruct (Fprint w1 l) as [w2 [e|]]; [reflexivity|].
    destruct (Fprint w2 newline) as [w3 [e|]]; [reflexivity|].
    apply IH.
Qed.

End AnyWriter.

(** X1.  For every writer, failing or not, [WriteIndentedN] is the writes
    of the indentation spaces, the lines and the newlines between them,
    asked for one at a time in this order; the first write that fails ends
    it, its error is the result, and no later write is asked for. *)
Theorem WriteIndentedN_writes_in_order_until_failure :
  forall (rt : Runtime) (W : Type) (HW : Writer W) (w : W) (b : string) (n : Z),
    WriteIndentedN rt w b n
    = write_all w
        match ScanLines rt b with
        | [] => []
        | l :: rest => pieces (Z.to_nat n) l rest
        end.
Proof.
  intros rt W HW w b n. unfold WriteIndentedN.
  destruct (ScanLines rt b) as [|l rest]; [reflexivity|].
  apply write_lines_write_all.
Qed.

(** X1 on a writer with room for six bytes: the first line and the newline
    go in, the second line's second space fails, and the second line is
    never written. *)
Lemma WriteIndentedN_writes_in_order_until_failure_example :
  WriteIndentedN exampleRuntime {| taken := ""; room := 6 |}
    ("ab" ++ newline ++ "cd" ++ newline) 2
  = ({| taken := "  ab" ++ newline ++ " "; room := 0 |},
     Some (foreign_error "short write")).
Proof.
  rewrite WriteIndentedN_writes_in_order_until_failure. reflexivity.
Defined.

(** X2.  A count of spaces that is zero or negative gives no indentation:
    the loop over the spaces does not run, and the call behaves as with
    zero, for every writer. *)
Theorem WriteIndentedN_nonpositive_indent :
  forall (rt : Runtime) (W : Type) (HW : Writer W) (w : W) (b : string) (n : Z),
    (n <= 0)%Z ->
    WriteIndentedN rt w b n = WriteIndentedN rt w b 0
    /\ forall (HR : ReliableWriter W),
         written (fst (WriteIndentedN rt w b n))
         = written w ++ String.concat newline (ScanLines rt b).
Proof.
  intros rt W HW w b n Hn.
  assert (Hz : Z.to_nat n = Z.to_nat 0) by lia.
  assert (Heq : WriteIndentedN rt w b n = WriteIndentedN rt w b 0).
  { unfold WriteIndentedN. destruct (ScanLines rt b) as [|l rest];
      [reflexivity|].
    now rewrite !write_lines_write_all, Hz. }
  split; [exact Heq|].
  intros HR. rewrite Heq.
  destruct (WriteIndentedN_reliable rt W HW HR w b 0) as (w' & -> & Hw').
  cbn [fst]. rewrite Hw'.
  unfold indentedText, indentation. simpl.
  now rewrite map_id.
Qed.

Lemma WriteIndentedN_nonpositive_indent_witness :
  WriteIndentedN exampleRuntime ("" : Buffer) ("ab" ++ newline ++ "cd") (-3)
  = ("ab" ++ newline ++ "cd", None).
Proof.
  destruct (WriteIndentedN_nonpositive_indent exampleRuntime Buffer _ ""
              ("ab" ++ newline ++ "cd") (-3) ltac:(lia)) as [-> _].
  reflexivity.
Defined.

Lemma existsb_is_log_Info_app (rt : Runtime) (a b : list (Event rt)) :
  existsb is_log_Info (a ++ b)
  = existsb is_log_Info a || existsb is_log_Info b.
Proof.
  apply existsb_app.
Qed.

(** X3.  Neither helper ever hands an entry to the logger at info level:
    the message about a failed indentation cannot appear, because both
    helpers indent into a [bytes.Buffer], whose writes do not fail. *)
Theorem logging_helpers_never_log_at_info :
  forall (rt : Runtime) (req : Request rt) (res : Response rt)
         (events : list (Event rt)),
    existsb is_log_Info events = false ->
    existsb is_log_Info (snd (logRequest rt req events)) = false
    /\ existsb is_log_Info (snd (logResponse rt res events)) = false.
Proof.
  intros rt req res events Hno. split.
  - unfold logRequest.
    destruct (DumpRequest rt req _) as [buf [e|]].
    + simpl. rewrite existsb_is_log_Info_app, Hno. reflexivity.
    + unfold WriteIndented.
      match goal with
      | |- context [WriteIndentedN rt ?w buf 4] =>
          destruct (WriteIndentedN_reliable rt Buffer _ _ w buf 4)
            as (w' & -> & _)
      end.
      simpl. rewrite existsb_is_log_Info_app, Hno. reflexivity.
  - unfold logResponse.
    destruct (DumpResponse rt res _) as [buf [e|]].
    + simpl. rewrite existsb_is_log_Info_app, Hno. reflexivity.
    + unfold WriteIndented.
      destruct (WriteIndentedN_reliable rt Buffer _ _ ("" : Buffer) buf 4)
        as (bw & -> & _).
      simpl. rewrite !existsb_is_log_Info_app, Hno. reflexivity.
Qed.

Lemma logging_helpers_never_log_at_info_witness :
  existsb is_log_Info (snd (logRequest exampleRuntime jsonMessage [])) = false
  /\ existsb is_log_Info (snd (logResponse exampleRuntime jsonMessage [])) = false.
Proof.
  apply (logging_helpers_never_log_at_info exampleRuntime jsonMessage
           jsonMessage []).
  reflexivity.
Defined.

(** X4.  A message without a content-type header is dumped with its body,
    as long as the binary content type is not the empty string: the header
    reads as the empty string, which is not the binary value. *)
Theorem absent_content_type_dumps_with_body :
  forall (rt : Runtime) (req : Request rt) (res : Response rt)
         (events : list (Event rt)),
    headerValContentTypeBinaryOctetStream rt <> "" ->
    (Request_Header rt req
       (CanonicalMIMEHeaderKey rt (HeaderKeyContentType rt)) = [] ->
     snd (logRequest rt req events)
     = (events ++ [DumpRequest_called req true])%list)
    /\ (Response_Header rt res
          (CanonicalMIMEHeaderKey rt (HeaderKeyContentType rt)) = [] ->
        exists logged : list (Event rt),
          snd (logResponse rt res events)
          = (events ++ DumpResponse_called res true :: logged)%list).
Proof.
  intros rt req res events Hval.
  assert (Hbin : forall h : Header,
             h (CanonicalMIMEHeaderKey rt (HeaderKeyContentType rt)) = [] ->
             isBinOctetBody rt h = false).
  { intros h Hh. unfold isBinOctetBody, Header_Get. rewrite Hh.
    apply String.eqb_neq. congruence. }
  split; intros Habsent.
  - unfold logRequest. rewrite (Hbin _ Habsent). simpl negb.
    destruct (DumpRequest rt req true) as [buf [e|]]; [reflexivity|].
    unfold WriteIndented.
    match goal with
    | |- context [WriteIndentedN rt ?w buf 4] =>
        destruct (WriteIndentedN_reliable rt Buffer _ _ w buf 4)
          as (w' & -> & _)
    end.
    reflexivity.
  - unfold logResponse. rewrite (Hbin _ Habsent). simpl negb.
    destruct (DumpResponse rt res true) as [buf [e|]].
    + exists []. reflexivity.
    + unfold WriteIndented.
      destruct (WriteIndentedN_reliable rt Buffer _ _ ("" : Buffer) buf 4)
        as (bw & -> & _).
      eexists. simpl. rewrite <- app_assoc. reflexivity.
Qed.

Lemma absent_content_type_dumps_with_body_witness :
  snd (logRequest headerlessRuntime jsonMessage [])
  = [DumpRequest_called (jsonMessage : Request headerlessRuntime) true]
  /\ exists logged : list (Event headerlessRuntime),
       snd (logResponse headerlessRuntime jsonMessage [])
       = DumpResponse_called (jsonMessage : Response headerlessRuntime) true
         :: logged.
Proof.
  destruct (absent_content_type_dumps_with_body headerlessRuntime jsonMessage
              jsonMessage [] ltac:(discriminate)) as [Hreq Hres].
  split.
  - apply Hreq. reflexivity.
  - apply Hres. reflexivity.
Defined.

(** * Further properties of the filesystem accessor *)

Section AccessorBehaviour.

Variable f : filesystem.

(** X5.  [DeleteFilesystem] on a filesystem that is found sends, after the
    look-up, one DELETE of the storage resource the look-up reports (not of
    the filesystem id it was given), and nothing else.  It returns nil when
    the array accepts the DELETE, and otherwise an error naming the
    filesystem id with the text of the executor's error. *)
Theorem DeleteFilesystem_deletes_the_storage_resource :
  forall (filesystemId : string) (s : State (World (client f)))
         (w1 w2 : World (client f)) (r1 r2 : Reply),
    filesystemId <> "" ->
    respond (client f) (world s) (getFilesystemById f filesystemId) = (w1, r1) ->
    err r1 = None ->
    respond (client f) w1
      (deleteStorageResource
         (Id (StorageResource (FileContent (asFilesystem r1)))))
    = (w2, r2) ->
    DeleteFilesystem f filesystemId s
    = (Some match err r2 with
            | Some e =>
                Some (errors_New
                  ("Delete Filesystem " ++ filesystemId ++ " Failed. Error: "
                   ++ Error e))
            | None => None
            end,
       {| world := w2;
          calls := calls s
                   ++ [getFilesystemById f filesystemId;
                       deleteStorageResource
                         (Id (StorageResource
                                (FileContent (asFilesystem r1))))] |}).
Proof.
  intros filesystemId s w1 w2 r1 r2 Hid H1 E1 H2.
  unfold DeleteFilesystem.
  rewrite (length_eqb_0 _ Hid).
  unfold bind at 1.
  rewrite (FindFilesystemById_run f _ _ _ _ Hid H1), E1.
  unfold bind at 1, deref.
  unfold bind. rewrite executeWithRetryAuthenticate_run.
  fold (deleteStorageResource
          (Id (StorageResource (FileContent (asFilesystem r1))))).
  rewrite world_answered, H2. cbn [fst snd].
  destruct (err r2); unfold ret, answered; simpl;
    rewrite <- !app_assoc; reflexivity.
Qed.

(** X6.  [DeleteNFSShare] with both ids not empty, a filesystem that is
    found and a share that is found makes three calls: the two look-ups and
    one POST to the modify URI of the filesystem's storage resource, whose
    body names the share to delete.  It returns nil when the array accepts
    the POST, and otherwise an error naming the share id with the text of
    the executor's error. *)
Theorem DeleteNFSShare_removes_the_share :
  forall (filesystemId nfsShareId : string) (s : State (World (client f)))
         (w1 w2 w3 : World (client f)) (r1 r2 r3 : Reply),
    filesystemId <> "" ->
    nfsShareId <> "" ->
    respond (client f) (world s) (getFilesystemById f filesystemId) = (w1, r1) ->
    err r1 = None ->
    respond (client f) w1 (getNFSShareById f nfsShareId) = (w2, r2) ->
    err r2 = None ->
    respond (client f) w2
      (postModifyFilesystem
         (Id (StorageResource (FileContent (asFilesystem r1))))
         (shareDeleteBody nfsShareId))
    = (w3, r3) ->
    DeleteNFSShare f filesystemId nfsShareId s
    = (Some match err r3 with
            | Some e =>
                Some (errors_New
                  ("Delete NFS Share: " ++ nfsShareId ++ " Failed. Error: "
                   ++ Error e))
            | None => None
            end,
       {| world := w3;
          calls := calls s
                   ++ [getFilesystemById f filesystemId;
                       getNFSShareById f nfsShareId;
                       postModifyFilesystem
                         (Id (StorageResource
                                (FileContent (asFilesystem r1))))
                         (shareDeleteBody nfsShareId)] |}).
Proof.
  intros filesystemId nfsShareId s w1 w2 w3 r1 r2 r3 Hfs Hnfs H1 E1 H2 E2 H3.
  unfold DeleteNFSShare.
  rewrite (length_eqb_0 _ Hfs).
  unfold bind at 1.
  rewrite (FindFilesystemById_run f _ _ _ _ Hfs H1), E1.
  unfold bind at 1, deref.
  rewrite (length_eqb_0 _ Hnfs).
  unfold bind at 1.
  rewrite (FindNFSShareById_run f nfsShareId _ w2 r2 Hnfs);
    [|rewrite world_answered; exact H2].
  rewrite E2.
  unfold bind. rewrite executeWithRetryAuthenticate_run.
  fold (shareDeleteBody nfsShareId).
  fold (postModifyFilesystem
          (Id (StorageResource (FileContent (asFilesystem r1))))
          (shareDeleteBody nfsShareId)).
  rewrite world_answered, H3. cbn [fst snd].
  destruct (err r3); unfold ret, answered; simpl;
    rewrite <- !app_assoc; reflexivity.
Qed.

(** X7.  [CreateNFSShare], for any name, path and default access, once the
    filesystem is found.  When the array refuses the modify call, the
    result is an error with the text of the executor's error and there is
    no second look-up.  When the array accepts it, the filesystem is looked
    up again, and if that look-up fails the result is the not-found error
    although the modify call that adds the share has been accepted;
    otherwise it is the filesystem of the second look-up. *)
Theorem CreateNFSShare_after_the_lookup :
  forall (name path filesystemId : string)
         (nfsShareDefaultAccess : NFSShareDefaultAccess)
         (s : State (World (client f)))
         (w1 w2 : World (client f)) (r1 r2 : Reply),
    filesystemId <> "" ->
    respond (client f) (world s) (getFilesystemById f filesystemId) = (w1, r1) ->
    err r1 = None ->
    respond (client f) w1
      (postModifyFilesystem
         (Id (StorageResource (FileContent (asFilesystem r1))))
         (shareCreateBody name path nfsShareDefaultAccess))
    = (w2, r2) ->
    (forall e : error,
        err r2 = Some e ->
        CreateNFSShare f name path filesystemId nfsShareDefaultAccess s
        = (Some (None,
                 Some (errors_New
                   ("Create NFS Share failed. Error: " ++ Error e))),
           {| world := w2;
              calls := calls s
                       ++ [getFilesystemById f filesystemId;
                           postModifyFilesystem
                             (Id (StorageResource
                                    (FileContent (asFilesystem r1))))
                             (shareCreateBody name path
                                nfsShareDefaultAccess)] |}))
    /\ (forall (w3 : World (client f)) (r3 : Reply),
        err r2 = None ->
        respond (client f) w2 (getFilesystemById f filesystemId) = (w3, r3) ->
        CreateNFSShare f name path filesystemId nfsShareDefaultAccess s
        = (Some match err r3 with
                | Some _ => (None, Some FilesystemNotFoundError)
                | None => (Some (asFilesystem r3), None)
                end,
           {| world := w3;
              calls := calls s
                       ++ [getFilesystemById f filesystemId;
                           postModifyFilesystem
                             (Id (StorageResource
                                    (FileContent (asFilesystem r1))))
                             (shareCreateBody name path
                                nfsShareDefaultAccess);
                           getFilesystemById f filesystemId] |})).
Proof.
  intros name path filesystemId nfsShareDefaultAccess s w1 w2 r1 r2
    Hid H1 E1 H2.
  assert (Hstart :
    CreateNFSShare f name path filesystemId nfsShareDefaultAccess s
    = match err r2 with
      | Some e =>
          ret (None,
               Some (errors_New ("Create NFS Share failed. Error: " ++ Error e)))
      | None =>
          '(filesystemResp, err) <- FindFilesystemById f filesystemId ;;
          match err with
          | Some _ => ret (None, Some FilesystemNotFoundError)
          | None => ret (filesystemResp, None)
          end
      end
        (answered (answered s (getFilesystemById f filesystemId) w1)
           (postModifyFilesystem
              (Id (StorageResource (FileContent (asFilesystem r1))))
              (shareCreateBody name path nfsShareDefaultAccess)) w2)).
  { unfold CreateNFSShare.
    rewrite (length_eqb_0 _ Hid).
    unfold bind at 1.
    rewrite (FindFilesystemById_run f _ _ _ _ Hid H1), E1.
    unfold bind at 1, deref.
    unfold bind at 1. rewrite executeWithRetryAuthenticate_run.
    fold (shareCreateBody name path nfsShareDefaultAccess).
    fold (postModifyFilesystem
            (Id (StorageResource (FileContent (asFilesystem r1))))
            (shareCreateBody name path nfsShareDefaultAccess)).
    rewrite world_answered, H2. reflexivity. }
  rewrite Hstart. split.
  - intros e E2. rewrite E2. unfold ret, answered; simpl.
    rewrite <- !app_assoc. reflexivity.
  - intros w3 r3 E2 H3. rewrite E2. unfold bind.
    rewrite (FindFilesystemById_run f filesystemId _ w3 r3 Hid);
      [|rewrite world_answered; exact H3].
    destruct (err r3); unfold ret, answered; simpl;
      rewrite <- !app_assoc; reflexivity.
Qed.

(** X8.  [CreateNFSShare] and [ModifyNFSShareHostAccess] on a filesystem
    whose look-up fails return [FilesystemNotFoundError], whatever the
    executor's error was, after that one call: nothing is sent to modify the
    array. *)
Theorem share_operations_stop_when_filesystem_not_found :
  forall (filesystemId : string) (s : State (World (client f)))
         (w1 : World (client f)) (r1 : Reply) (e : error),
    filesystemId <> "" ->
    respond (client f) (world s) (getFilesystemById f filesystemId) = (w1, r1) ->
    err r1 = Some e ->
    (forall name path nfsShareDefaultAccess,
        CreateNFSShare f name path filesystemId nfsShareDefaultAccess s
        = (Some (None, Some FilesystemNotFoundError),
           answered s (getFilesystemById f filesystemId) w1))
    /\ (forall nfsShareId hostIds accessType,
        ModifyNFSShareHostAccess f filesystemId nfsShareId hostIds accessType s
        = (Some (Some FilesystemNotFoundError),
           answered s (getFilesystemById f filesystemId) w1)).
Proof.
  intros filesystemId s w1 r1 e Hid H1 E1. split; intros.
  - unfold CreateNFSShare.
    rewrite (length_eqb_0 _ Hid). unfold bind.
    rewrite (FindFilesystemById_run f _ _ _ _ Hid H1), E1. reflexivity.
  - unfold ModifyNFSShareHostAccess.
    rewrite (length_eqb_0 _ Hid). unfold bind.
    rewrite (FindFilesystemById_run f _ _ _ _ Hid H1), E1. reflexivity.
Qed.

(** X9.  [ModifyNFSShareHostAccess], for any access type, once the
    filesystem is found: the calls are the look-up and one POST to the
    modify URI of the filesystem's storage resource, carrying the share id
    and the host list the access type selects; the result is nil when the
    array accepts the POST and otherwise an error with the text of the
    executor's error. *)
Theorem ModifyNFSShareHostAccess_after_the_lookup :
  forall (filesystemId nfsShareId : string) (hostIds : list string)
         (accessType : AccessType) (s : State (World (client f)))
         (w1 w2 : World (client f)) (r1 r2 : Reply),
    filesystemId <> "" ->
    respond (client f) (world s) (getFilesystemById f filesystemId) = (w1, r1) ->
    err r1 = None ->
    respond (client f) w1
      (postModifyFilesystem
         (Id (StorageResource (FileContent (asFilesystem r1))))
         (hostAccessBody nfsShareId (hostAccessParameters accessType hostIds)))
    = (w2, r2) ->
    ModifyNFSShareHostAccess f filesystemId nfsShareId hostIds accessType s
    = (Some match err r2 with
            | Some e =>
                Some (errors_New
                  ("Modify NFS Share failed. Error: " ++ Error e))
            | None => None
            end,
       {| world := w2;
          calls := calls s
                   ++ [getFilesystemById f filesystemId;
                       postModifyFilesystem
                         (Id (StorageResource
                                (FileContent (asFilesystem r1))))
                         (hostAccessBody nfsShareId
                            (hostAccessParameters accessType hostIds))] |}).
Proof.
  intros filesystemId nfsShareId hostIds accessType s w1 w2 r1 r2
    Hid H1 E1 H2.
  unfold ModifyNFSShareHostAccess.
  rewrite (length_eqb_0 _ Hid).
  unfold bind at 1.
  rewrite (FindFilesystemById_run f _ _ _ _ Hid H1), E1.
  unfold bind at 1, deref.
  unfold bind. rewrite executeWithRetryAuthenticate_run.
  rewrite hostIdContents_map.
  assert (Hp :
    (if (accessType =? ReadOnlyAccessType)%string then
       {| DefaultAccess := "";
          ReadOnlyHosts := Some (hosts hostIds);
          ReadWriteHosts := None;
          ReadOnlyRootAccessHosts := None;
          RootAccessHosts := None |}
     else if (accessType =? ReadWriteAccessType)%string then
       {| DefaultAccess := "";
          ReadOnlyHosts := None;
          ReadWriteHosts := Some (hosts hostIds);
          ReadOnlyRootAccessHosts := None;
          RootAccessHosts := None |}
     else if (accessType =? ReadOnlyRootAccessType)%string then
       {| DefaultAccess := "";
          ReadOnlyHosts := None;
          ReadWriteHosts := None;
          ReadOnlyRootAccessHosts := Some (hosts hostIds);
          RootAccessHosts := None |}
     else
       {| DefaultAccess := "";
          ReadOnlyHosts := None;
          ReadWriteHosts := None;
          ReadOnlyRootAccessHosts := None;
          RootAccessHosts := Some (hosts hostIds) |})
    = hostAccessParameters accessType hostIds) by reflexivity.
  rewrite Hp.
  fold (hostAccessBody nfsShareId (hostAccessParameters accessType hostIds)).
  fold (postModifyFilesystem
          (Id (StorageResource (FileContent (asFilesystem r1))))
          (hostAccessBody nfsShareId (hostAccessParameters accessType hostIds))).
  rewrite world_answered, H2. cbn [fst snd].
  destruct (err r2); unfold ret, answered; simpl;
    rewrite <- !app_assoc; reflexivity.
Qed.

(** X10.  [CreateFilesystem] with a name that passes validation, a pool
    that is found and both license answers in, when no feature is asked for
    without its license: after the three look-ups it sends one POST of the
    createFilesystem action and nothing else.  The request names the pool
    and the NAS server, always switches CIFS events off and NFS events on,
    sets the thin and data-reduction fields only under an installed and
    valid license (they stay empty otherwise), and carries the tiering
    policy only when the pool's FastVP status is not 0.  The result is the
    filesystem the array answers with, or the executor's error as it is,
    not wrapped. *)
Theorem CreateFilesystem_sends_one_create_request :
  forall (name storagepool description nasServer : string) (size : N)
         (tieringPolicy hostIOSize supportedProtocol : Z)
         (isThinEnabled isDataReductionEnabled : bool)
         (s s1 s2 s3 : State (World (client f)))
         (pool : StoragePool) (thin dataReduction : LicenseInfo)
         (w : World (client f)) (reply : Reply),
    name <> "" ->
    String.length name <= FsNameMaxLength ->
    FindStoragePoolById (client f) storagepool s = (Some (Some pool, None), s1) ->
    isFeatureLicensed (client f) (ThinProvisioning (client f)) s1
    = (Some (Some thin, None), s2) ->
    isFeatureLicensed (client f) (DataReduction (client f)) s2
    = (Some (Some dataReduction, None), s3) ->
    (isThinEnabled = true -> installed_and_valid thin = true) ->
    (isDataReductionEnabled = true ->
     installed_and_valid dataReduction = true) ->
    respond (client f) (world s3)
      (postCreateFilesystem
         (createFilesystemParam name storagepool description nasServer size
            tieringPolicy hostIOSize supportedProtocol isThinEnabled
            isDataReductionEnabled pool thin dataReduction))
    = (w, reply) ->
    CreateFilesystem f name storagepool description nasServer size
      tieringPolicy hostIOSize supportedProtocol isThinEnabled
      isDataReductionEnabled s
    = (Some match err reply with
            | Some e => (None, Some e)
            | None => (Some (asFilesystem reply), None)
            end,
       answered s3
         (postCreateFilesystem
            (createFilesystemParam name storagepool description nasServer
               size tieringPolicy hostIOSize supportedProtocol isThinEnabled
               isDataReductionEnabled pool thin dataReduction))
         w).
Proof.
  intros name storagepool description nasServer size tieringPolicy hostIOSize
    supportedProtocol isThinEnabled isDataReductionEnabled s s1 s2 s3 pool
    thin dataReduction w reply Hne Hshort Hpool Hthin Hdr Lthin Ldr Hsend.
  unfold CreateFilesystem.
  apply String.eqb_neq in Hne. rewrite Hne.
  apply Nat.ltb_ge in Hshort. rewrite Hshort.
  unfold bind at 1. rewrite Hpool.
  unfold bind at 1. rewrite Hthin.
  unfold bind at 1. rewrite Hdr.
  unfold bind, deref.
  revert Hsend. unfold createFilesystemParam.
  destruct (installed_and_valid thin) eqn:Ethin;
    destruct (installed_and_valid dataReduction) eqn:Edr;
    destruct isThinEnabled; destruct isDataReductionEnabled;
    try (specialize (Lthin eq_refl); discriminate);
    try (specialize (Ldr eq_refl); discriminate);
    destruct (Status (PoolFastVP (StoragePoolContent pool)) =? 0)%Z;
    intros Hsend;
    rewrite executeWithRetryAuthenticate_run;
    match type of Hsend with
    | respond _ _ ?c = _ =>
        repeat match goal with
        | |- context [respond (client f) (world s3) ?c'] =>
            lazymatch c' with
            | c => fail
            | _ => change c' with c
            end
        | |- context [answered s3 ?c' _] =>
            lazymatch c' with
            | c => fail
            | _ => change c' with c
            end
        end
    end;
    rewrite Hsend; cbn [fst snd];
    destruct (err reply); reflexivity.
Qed.

(** X11.  [CreateFilesystem] with a name that passes validation stops at a
    pool look-up that gives no pool or an error: the result is an error
    carrying the pool id and the look-up's error (printed as <nil> when the
    look-up gave neither pool nor error), and the state is the one the pool
    look-up left, so the licenses are not asked for and nothing is
    created. *)
Theorem CreateFilesystem_stops_at_pool_failure :
  forall (name storagepool description nasServer : string) (size : N)
         (tieringPolicy hostIOSize supportedProtocol : Z)
         (isThinEnabled isDataReductionEnabled : bool)
         (s s1 : State (World (client f)))
         (pool : option StoragePool) (poolErr : option error),
    name <> "" ->
    String.length name <= FsNameMaxLength ->
    FindStoragePoolById (client f) storagepool s = (Some (pool, poolErr), s1) ->
    pool = None \/ poolErr <> None ->
    CreateFilesystem f name storagepool description nasServer size
      tieringPolicy hostIOSize supportedProtocol isThinEnabled
      isDataReductionEnabled s
    = (Some (None,
             Some (errors_New
               ((match pool with
                 | None => "unable to get PoolID ("
                 | Some _ => "Error trying to get Storage Pool ("
                 end)
                ++ storagepool ++ ") Error:" ++ fmt_v poolErr))),
       s1).
Proof.
  intros name storagepool description nasServer size tieringPolicy hostIOSize
    supportedProtocol isThinEnabled isDataReductionEnabled s s1 pool poolErr
    Hne Hshort Hpool Hfail.
  unfold CreateFilesystem.
  apply String.eqb_neq in Hne. rewrite Hne.
  apply Nat.ltb_ge in Hshort. rewrite Hshort.
  unfold bind at 1. rewrite Hpool.
  destruct pool as [p|]; [|reflexivity].
  destruct poolErr as [e|]; [reflexivity|].
  destruct Hfail as [Hfail|Hfail]; [discriminate | contradiction].
Qed.

(** X12.  Each of the five look-ups returns, for every identifier and in
    every state, either a value and a nil error or a nil value and an
    error, never both and never neither. *)
Theorem lookups_return_value_or_error :
  forall (id : string) (s : State (World (client f))),
    value_xor_error (fst (FindFilesystemByName f id s))
    /\ value_xor_error (fst (FindFilesystemById f id s))
    /\ value_xor_error (fst (FindNFSShareByName f id s))
    /\ value_xor_error (fst (FindNFSShareById f id s))
    /\ value_xor_error (fst (FindNASServerById f id s)).
Proof.
  intros id s.
  assert (Hv : forall (A : Type) (a : A),
             @value_xor_error A (Some (Some a, None))).
  { intros A a. exists (Some a), None. split; [reflexivity|].
    split; intros; [discriminate | contradiction]. }
  assert (He : forall (A : Type) (e : error),
             @value_xor_error A (Some (None, Some e))).
  { intros A e. exists None, (Some e). split; [reflexivity|].
    split; intros; [discriminate | reflexivity]. }
  unfold FindFilesystemByName, FindFilesystemById, FindNFSShareByName,
    FindNFSShareById, FindNASServerById.
  destruct (String.length id =? 0)%nat.
  - repeat split; apply He.
  - unfold bind. rewrite !executeWithRetryAuthenticate_run.
    refine (conj _ (conj _ (conj _ (conj _ _))));
      match goal with
      | |- context [err ?r] => destruct (err r)
      end; simpl; auto.
Qed.

(** X13.  [DeleteFilesystem], [CreateNFSShare], [ModifyNFSShareHostAccess]
    and [DeleteNFSShare] never dereference a nil filesystem: they read the
    look-up's filesystem only after its error was nil, and the look-up
    gives a filesystem whenever its error is nil.  In every state and for
    all arguments they return. *)
Theorem share_operations_never_panic :
  forall (name path filesystemId nfsShareId : string)
         (nfsShareDefaultAccess : NFSShareDefaultAccess)
         (hostIds : list string) (accessType : AccessType)
         (s : State (World (client f))),
    fst (DeleteFilesystem f filesystemId s) <> None
    /\ fst (CreateNFSShare f name path filesystemId nfsShareDefaultAccess s)
       <> None
    /\ fst (ModifyNFSShareHostAccess f filesystemId nfsShareId hostIds
              accessType s) <> None
    /\ fst (DeleteNFSShare f filesystemId nfsShareId s) <> None.
Proof.
  intros name path filesystemId nfsShareId nfsShareDefaultAccess hostIds
    accessType s.
  destruct (String.length filesystemId =? 0)%nat eqn:Hlen.
  { unfold DeleteFilesystem, CreateNFSShare, ModifyNFSShareHostAccess,
      DeleteNFSShare.
    rewrite Hlen. repeat split; discriminate. }
  assert (Hid : filesystemId <> "").
  { intros ->. simpl in Hlen. discriminate. }
  destruct (respond (client f) (world s) (getFilesystemById f filesystemId))
    as [w1 r1] eqn:H1.
  pose proof (FindFilesystemById_run f _ _ _ _ Hid H1) as Hfind.
  refine (conj _ (conj _ (conj _ _))).
  - unfold DeleteFilesystem. rewrite Hlen.
    unfold bind at 1. rewrite Hfind.
    destruct (err r1); [simpl; discriminate|].
    unfold bind, deref. rewrite executeWithRetryAuthenticate_run.
    match goal with |- context [err ?r] => destruct (err r) end;
      simpl; discriminate.
  - unfold CreateNFSShare. rewrite Hlen.
    unfold bind at 1. rewrite Hfind.
    destruct (err r1); [simpl; discriminate|].
    unfold bind at 1, deref.
    unfold bind at 1. rewrite executeWithRetryAuthenticate_run.
    match goal with |- context [err ?r] => destruct (err r) end;
      [simpl; discriminate|].
    unfold bind, FindFilesystemById. rewrite Hlen.
    unfold bind. rewrite executeWithRetryAuthenticate_run.
    match goal with |- context [err ?r] => destruct (err r) end;
      simpl; discriminate.
  - unfold ModifyNFSShareHostAccess. rewrite Hlen.
    unfold bind at 1. rewrite Hfind.
    destruct (err r1); [simpl; discriminate|].
    unfold bind, deref. rewrite executeWithRetryAuthenticate_run.
    match goal with |- context [err ?r] => destruct (err r) end;
      simpl; discriminate.
  - unfold DeleteNFSShare. rewrite Hlen.
    unfold bind at 1. rewrite Hfind.
    destruct (err r1); [simpl; discriminate|].
    unfold bind at 1, deref.
    destruct (String.length nfsShareId =? 0)%nat eqn:Hshare;
      [simpl; discriminate|].
    unfold bind at 1, FindNFSShareById. rewrite Hshare.
    unfold bind at 1. rewrite executeWithRetryAuthenticate_run.
    match goal with |- context [err ?r] => destruct (err r) end;
      [simpl; discriminate|].
    unfold ret at 1. unfold bind. rewrite executeWithRetryAuthenticate_run.
    match goal with |- context [err ?r] => destruct (err r) end;
      simpl; discriminate.
Qed.

(** X14.  [CreateFilesystem] reads the two license answers through their
    pointers.  When the pool look-up and the license look-up return, and the
    license look-up gives an answer whenever it gives no error, then
    [CreateFilesystem] returns for all arguments and in every state: it
    dereferences no nil pointer. *)
Theorem CreateFilesystem_never_panics :
  (forall (poolId : string) (s : State (World (client f))),
      fst (FindStoragePoolById (client f) poolId s) <> None) ->
  (forall (featureName : string) (s : State (World (client f))),
      exists (resp : option LicenseInfo) (e : option error),
        fst (isFeatureLicensed (client f) featureName s) = Some (resp, e)
        /\ (e = None -> resp <> None)) ->
  forall (name storagepool description nasServer : string) (size : N)
         (tieringPolicy hostIOSize supportedProtocol : Z)
         (isThinEnabled isDataReductionEnabled : bool)
         (s : State (World (client f))),
    fst (CreateFilesystem f name storagepool description nasServer size
           tieringPolicy hostIOSize supportedProtocol isThinEnabled
           isDataReductionEnabled s) <> None.
Proof.
  intros Hpool Hlicense name storagepool description nasServer size
    tieringPolicy hostIOSize supportedProtocol isThinEnabled
    isDataReductionEnabled s.
  unfold CreateFilesystem.
  destruct (name =? "")%string; [simpl; discriminate|].
  destruct (FsNameMaxLength <? String.length name)%nat; [simpl; discriminate|].
  unfold bind at 1.
  specialize (Hpool storagepool s).
  destruct (FindStoragePoolById (client f) storagepool s)
    as [[[pool poolErr]|] s1]; [|now simpl in Hpool].
  destruct pool as [pool|]; [|simpl; discriminate].
  destruct poolErr; [simpl; discriminate|].
  unfold bind at 1.
  destruct (Hlicense (ThinProvisioning (client f)) s1)
    as (thinResp & thinErr & Hthin & Hthin_ok).
  destruct (isFeatureLicensed (client f) (ThinProvisioning (client f)) s1)
    as [r2 s2]. simpl in Hthin. subst r2.
  destruct thinErr; [simpl; discriminate|].
  unfold bind at 1.
  destruct (Hlicense (DataReduction (client f)) s2)
    as (drResp & drErr & Hdr & Hdr_ok).
  destruct (isFeatureLicensed (client f) (DataReduction (client f)) s2)
    as [r3 s3]. simpl in Hdr. subst r3.
  destruct drErr; [simpl; discriminate|].
  destruct thinResp as [thin|]; [|now destruct (Hthin_ok eq_refl)].
  destruct drResp as [dr|]; [|now destruct (Hdr_ok eq_refl)].
  unfold bind, deref.
  destruct (installed_and_valid thin), (installed_and_valid dr),
    isThinEnabled, isDataReductionEnabled;
    try (simpl; discriminate);
    rewrite executeWithRetryAuthenticate_run;
    match goal with |- context [err ?r] => destruct (err r) end;
    simpl; discriminate.
Qed.

End AccessorBehaviour.

(** X5 on the example array. *)
Lemma DeleteFilesystem_deletes_the_storage_resource_witness :
  DeleteFilesystem exampleFilesystem "fs_1" start
  = (Some None,
     {| world := 2;
        calls := [getFilesystemById exampleFilesystem "fs_1";
                  deleteStorageResource "sv_1"] |}).
Proof.
  apply (DeleteFilesystem_deletes_the_storage_resource exampleFilesystem
           "fs_1" start 1 2 okReply okReply);
    try discriminate; reflexivity.
Defined.

(** X6 on the example array. *)
Lemma DeleteNFSShare_removes_the_share_witness :
  DeleteNFSShare exampleFilesystem "fs_1" "nfs_1" start
  = (Some None,
     {| world := 3;
        calls := [getFilesystemById exampleFilesystem "fs_1";
                  getNFSShareById exampleFilesystem "nfs_1";
                  postModifyFilesystem "sv_1" (shareDeleteBody "nfs_1")] |}).
Proof.
  apply (DeleteNFSShare_removes_the_share exampleFilesystem
           "fs_1" "nfs_1" start 1 2 3 okReply okReply okReply);
    try discriminate; reflexivity.
Defined.

(** X7 on an array that refuses the modify call, and on one that fails at
    the second look-up. *)
Lemma CreateNFSShare_after_the_lookup_witness :
  CreateNFSShare readOnlyFilesystem "share1" "/path" "fs_1"
    ReadWriteDefaultAccess start
  = (Some (None,
           Some (errors_New "Create NFS Share failed. Error: 403 Forbidden")),
     {| world := 2;
        calls := [getFilesystemById readOnlyFilesystem "fs_1";
                  postModifyFilesystem "sv_1"
                    (shareCreateBody "share1" "/path" "2")] |})
  /\ CreateNFSShare flakyFilesystem "share1" "/path" "fs_1"
       ReadWriteDefaultAccess start
     = (Some (None, Some FilesystemNotFoundError),
        {| world := 3;
           calls := [getFilesystemById flakyFilesystem "fs_1";
                     postModifyFilesystem "sv_1"
                       (shareCreateBody "share1" "/path" "2");
                     getFilesystemById flakyFilesystem "fs_1"] |}).
Proof.
  split.
  - destruct (CreateNFSShare_after_the_lookup readOnlyFilesystem
                "share1" "/path" "fs_1" ReadWriteDefaultAccess start
                1 2 okReply forbiddenReply
                ltac:(discriminate) eq_refl eq_refl eq_refl) as [Hrefused _].
    apply (Hrefused (foreign_error "403 Forbidden")). reflexivity.
  - destruct (CreateNFSShare_after_the_lookup flakyFilesystem
                "share1" "/path" "fs_1" ReadWriteDefaultAccess start
                1 2 okReply okReply
                ltac:(discriminate) eq_refl eq_refl eq_refl) as [_ Haccepted].
    apply (Haccepted 3 notFoundReply); reflexivity.
Defined.

(** X8 on the example array, for a filesystem it does not know. *)
Lemma share_operations_stop_when_filesystem_not_found_witness :
  CreateNFSShare exampleFilesystem "share1" "/path" "fs_2"
    ReadOnlyDefaultAccess start
  = (Some (None, Some FilesystemNotFoundError),
     {| world := 1; calls := [getFilesystemById exampleFilesystem "fs_2"] |})
  /\ ModifyNFSShareHostAccess exampleFilesystem "fs_2" "nfs_1" ["host_1"]
       ReadWriteAccessType start
     = (Some (Some FilesystemNotFoundError),
        {| world := 1; calls := [getFilesystemById exampleFilesystem "fs_2"] |}).
Proof.
  destruct (share_operations_stop_when_filesystem_not_found exampleFilesystem
              "fs_2" start 1 notFoundReply (foreign_error "404 Not Found")
              ltac:(discriminate) eq_refl eq_refl) as [Hcreate Hmodify].
  split; [apply Hcreate | apply Hmodify].
Defined.

(** X9 on an array that refuses the modify call. *)
Lemma ModifyNFSShareHostAccess_after_the_lookup_witness :
  ModifyNFSShareHostAccess readOnlyFilesystem "fs_1" "nfs_1"
    ["host_1"; "host_2"] ReadWriteAccessType start
  = (Some (Some (errors_New "Modify NFS Share failed. Error: 403 Forbidden")),
     {| world := 2;
        calls := [getFilesystemById readOnlyFilesystem "fs_1";
                  postModifyFilesystem "sv_1"
                    (hostAccessBody "nfs_1"
                       (onlyReadWriteHosts
                          [{| HostIdContent_ID := "host_1" |};
                           {| HostIdContent_ID := "host_2" |}]))] |}).
Proof.
  apply (ModifyNFSShareHostAccess_after_the_lookup readOnlyFilesystem
           "fs_1" "nfs_1" ["host_1"; "host_2"] ReadWriteAccessType start
           1 2 okReply forbiddenReply);
    try discriminate; reflexivity.
Defined.

(** X10 on the example array: thin provisioning is licensed and asked for,
    data reduction is neither, and the pool has no FastVP. *)
Lemma CreateFilesystem_sends_one_create_request_witness :
  fst (CreateFilesystem exampleFilesystem "fs" "pool_1" "scratch" "nas_1"
         1024 2 8192 0 true false start)
  = Some (Some fs_1, None)
  /\ nth_error
       (calls (snd (CreateFilesystem exampleFilesystem "fs" "pool_1" "scratch"
                      "nas_1" 1024 2 8192 0 true false start))) 3
     = Some (postCreateFilesystem
               {| FsCreateParam_Name := "fs";
                  Description := "scratch";
                  FsCreateParam_FsParameters :=
                    Some {| FsParameters_StoragePool :=
                              Some {| PoolId := "pool_1" |};
                            Size := 1024;
                            SupportedProtocol := 0;
                            HostIOSize := 8192;
                            NasServer :=
                              Some {| NasServerID_NasServerID := "nas_1" |};
                            FsParameters_FileEventSettings :=
                              {| IsCIFSEnabled := false;
                                 IsNFSEnabled := true |};
                            IsThinEnabled := "true";
                            IsDataReductionEnabled := "";
                            FsParameters_FastVPParameters := None |} |})
  /\ List.length
       (calls (snd (CreateFilesystem exampleFilesystem "fs" "pool_1" "scratch"
                      "nas_1" 1024 2 8192 0 true false start))) = 4.
Proof.
  rewrite (CreateFilesystem_sends_one_create_request exampleFilesystem
             "fs" "pool_1" "scratch" "nas_1" 1024 2 8192 0 true false start
             (snd (exampleFindStoragePoolById "pool_1" start))
             (snd (exampleIsFeatureLicensed "THIN_PROVISIONING"
                     (snd (exampleFindStoragePoolById "pool_1" start))))
             (snd (exampleIsFeatureLicensed "DATA_REDUCTION"
                     (snd (exampleIsFeatureLicensed "THIN_PROVISIONING"
                             (snd (exampleFindStoragePoolById "pool_1"
                                     start))))))
             {| StoragePoolContent := {| PoolFastVP := {| Status := 0 |} |} |}
             {| LicenseInfoContent :=
                  {| IsInstalled := true; IsValid := true |} |}
             {| LicenseInfoContent :=
                  {| IsInstalled := false; IsValid := false |} |}
             4 okReply
             ltac:(discriminate) ltac:(vm_compute; lia)
             eq_refl eq_refl eq_refl
             ltac:(reflexivity) ltac:(discriminate) eq_refl).
  repeat split.
Defined.

(** X11 on the example array, for a pool it does not know. *)
Lemma CreateFilesystem_stops_at_pool_failure_witness :
  CreateFilesystem exampleFilesystem "fs" "pool_2" "" "nas_1" 1 0 0 0
    false false start
  = (Some (None,
           Some (errors_New
             "unable to get PoolID (pool_2) Error:find pool by id failed")),
     {| world := 1;
        calls := [{| method := MethodGet;
                     uri := Sprintf UnityApiGetResourceWithFieldsUri
                              ["pool"; "pool_2"; "id"];
                     body := nil_body |}] |}).
Proof.
  apply (CreateFilesystem_stops_at_pool_failure exampleFilesystem
           "fs" "pool_2" "" "nas_1" 1 0 0 0 false false start _
           None (Some (errors_New "find pool by id failed"))).
  - discriminate.
  - vm_compute. lia.
  - reflexivity.
  - now left.
Defined.

(** X14 on the example array, whose look-ups always answer. *)
Lemma CreateFilesystem_never_panics_witness :
  fst (CreateFilesystem exampleFilesystem "fs" "pool_1" "" "nas_1" 1 0 0 0
         true true start) <> None.
Proof.
  apply (CreateFilesystem_never_panics exampleFilesystem).
  - intros poolId s. simpl. unfold exampleFindStoragePoolById.
    destruct (poolId =? "pool_1")%string; discriminate.
  - intros featureName s. simpl. unfold exampleIsFeatureLicensed.
    eexists _, _. split; [reflexivity | discriminate].
Defined.
